(** * LINspector: a shallow embedding of the trace analysis engine

    The definitions below follow [src/linspector.py] function by function.
    Python integers are unbounded, so they are [Z]; bit operations are the
    [Z] ones ([~x] is [Z.lnot x]).  Python exceptions are values of [exc],
    and a function that may raise returns [result].  Dictionaries whose
    iteration order is observable are association lists in insertion
    order; counters indexed by a key ([defaultdict]) are [gmap]s.
    Floating point values (timestamps, scaling factors) are kept abstract
    behind the interface [PyFloat]; rationals give a runnable instance. *)

From Stdlib Require Import ZArith QArith Qabs Lia Bool.
From Stdlib Require Import String Ascii OrderedTypeEx.
From stdpp Require Import base option list gmap strings sorting pretty.

Local Open Scope Z_scope.

(** ** Exceptions *)

Inductive exc : Type :=
| ValueError
| AttributeError
| IndexError
| TypeError
| KeyError.

Inductive result (A : Type) : Type :=
| Ok (a : A)
| Raise (e : exc).
Arguments Ok {A} a.
Arguments Raise {A} e.

Definition rbind {A B} (r : result A) (k : A -> result B) : result B :=
  match r with
  | Ok a => k a
  | Raise e => Raise e
  end.

Notation "x <-! r ;; k" := (rbind r (fun x => k))
  (at level 100, r at next level, right associativity).

Definition returns {A} (r : result A) : Prop := exists a, r = Ok a.

(** ** Numeric primitives *)

Module Primitives.

(** [calculate_pid], line 238. *)
Definition calculate_pid (frame_id : Z) : result Z :=
  if negb ((0 <=? frame_id) && (frame_id <=? 0x3F)) then Raise ValueError
  else
    let id_bits := Z.land frame_id 0x3F in
    let p0 :=
      Z.lxor (Z.lxor (Z.lxor (Z.land (Z.shiftr id_bits 0) 1)
                             (Z.land (Z.shiftr id_bits 1) 1))
                     (Z.land (Z.shiftr id_bits 2) 1))
             (Z.land (Z.shiftr id_bits 4) 1) in
    let p1 :=
      Z.land (Z.lnot
        (Z.lxor (Z.lxor (Z.lxor (Z.land (Z.shiftr id_bits 1) 1)
                                (Z.land (Z.shiftr id_bits 3) 1))
                        (Z.land (Z.shiftr id_bits 4) 1))
                (Z.land (Z.shiftr id_bits 5) 1))) 1 in
    Ok (Z.land (Z.lor (Z.lor id_bits (Z.shiftl p0 6)) (Z.shiftl p1 7)) 0xFF).

(** An element of a Python list handed to [calculate_checksum]: the
    function keeps the [int] ones only. *)
Inductive pyval : Type :=
| PyInt (z : Z)
| PyNone.

Definition int_values (data_bytes : list pyval) : list Z :=
  omap (fun d => match d with PyInt z => Some z | PyNone => None end) data_bytes.

Definition sum (l : list Z) : Z := foldr Z.add 0 l.

(** One turn of [while sum_val > 0xFF: sum_val = (sum_val & 0xFF) + (sum_val >> 8)]. *)
Definition fold_step (sum_val : Z) : Z :=
  Z.land sum_val 0xFF + Z.shiftr sum_val 8.

Fixpoint fold_carries_fuel (fuel : nat) (sum_val : Z) : Z :=
  match fuel with
  | O => sum_val
  | S fuel' =>
      if 0xFF <? sum_val then fold_carries_fuel fuel' (fold_step sum_val)
      else sum_val
  end.

(** The loop: every turn makes a value above 0xFF strictly smaller, so
    [sum_val] turns are always enough (see [fold_carries_eq]). *)
Definition fold_carries (sum_val : Z) : Z :=
  fold_carries_fuel (Z.to_nat sum_val) sum_val.

(** The loop as a relation: [carry_folded s r] when running the [while]
    from [s] stops with [r]. *)
Inductive carry_folded : Z -> Z -> Prop :=
| carry_done (s : Z) : s <= 0xFF -> carry_folded s s
| carry_turn (s r : Z) :
    0xFF < s -> carry_folded (fold_step s) r -> carry_folded s r.

(** [calculate_checksum], line 1655. *)
Definition calculate_checksum (data_bytes : list pyval)
    (pid_for_enhanced : option Z) : result Z :=
  let valid_data := int_values data_bytes in
  match pid_for_enhanced with
  | Some pid =>
      if negb ((0 <=? pid) && (pid <=? 0xFF)) then Raise ValueError
      else Ok (Z.land (Z.lnot (fold_carries (pid + sum valid_data))) 0xFF)
  | None =>
      match valid_data with
      | [] => Ok 0xFF
      | _ => Ok (Z.land (Z.lnot (fold_carries (sum valid_data))) 0xFF)
      end
  end.

(** The classic LIN checksum as the specification words it: sum the data
    bytes, fold the carries while the sum exceeds 0xFF, complement. *)
Definition classic_checksum_spec (data : list Z) (checksum : Z) : Prop :=
  exists folded,
    carry_folded (sum data) folded /\ checksum = Z.land (Z.lnot folded) 0xFF.

(** [extract_signal_value], line 2101.  [data_bytes[byte_index]] raises
    [IndexError] past the end of the list; the indices computed here are
    never negative for a start bit that is not. *)
Definition py_index (data_bytes : list Z) (i : Z) : result Z :=
  let n := Z.of_nat (length data_bytes) in
  let j := if i <? 0 then i + n else i in
  if (j <? 0) || (n <=? j) then Raise IndexError
  else match data_bytes !! Z.to_nat j with
       | Some b => Ok b
       | None => Raise IndexError
       end.

Fixpoint big_endian_bits (data_bytes : list Z) (start_bit : Z)
    (idxs : list Z) (extracted_value : Z) : result Z :=
  match idxs with
  | [] => Ok extracted_value
  | i :: rest =>
      let bit_index := 8 * (start_bit / 8) + (7 - start_bit mod 8) + i in
      let byte_index := bit_index / 8 in
      let bit_in_byte := bit_index mod 8 in
      byte <-! py_index data_bytes byte_index ;;
      let bit_value := Z.land (Z.shiftr byte (7 - bit_in_byte)) 1 in
      big_endian_bits data_bytes start_bit rest
        (Z.lor (Z.shiftl extracted_value 1) bit_value)
  end.

(** [range(length)]. *)
Definition range (n : Z) : list Z := map Z.of_nat (seq 0 (Z.to_nat n)).

Fixpoint little_endian_combine (data_bytes : list Z) (idx : Z) (acc : Z) : Z :=
  match data_bytes with
  | [] => acc
  | byte :: rest =>
      little_endian_combine rest (idx + 1)
        (Z.lor acc (Z.shiftl (Z.land byte 0xFF) (8 * idx)))
  end.

Definition extract_signal_value (data_bytes : list Z) (start_bit length : Z)
    (is_big_endian is_signed : bool) : result Z :=
  extracted_value <-!
    (if is_big_endian then
       big_endian_bits data_bytes start_bit (range length) 0
     else
       let raw_value_combined := little_endian_combine data_bytes 0 0 in
       if (length <? 0) || (start_bit <? 0) then Raise ValueError
       else
         let mask := Z.shiftl 1 length - 1 in
         Ok (Z.land (Z.shiftr raw_value_combined start_bit) mask)) ;;
  if is_signed && (0 <? length) then
    let sign_bit_mask := Z.shiftl 1 (length - 1) in
    if negb (Z.land extracted_value sign_bit_mask =? 0)
    then Ok (extracted_value - Z.shiftl 1 length)
    else Ok extracted_value
  else Ok extracted_value.

End Primitives.

(** ** Floating point interface

    [float] values are never inspected by the properties proved here
    beyond the comparisons the code makes, so the arithmetic is an
    interface; every theorem holds for any implementation of it. *)

Class PyFloat (F : Type) : Type := {
  f_of_int : Z -> F;
  f_add : F -> F -> F;
  f_sub : F -> F -> F;
  f_mul : F -> F -> F;
  f_div : F -> F -> F;
  f_abs : F -> F;
  f_ltb : F -> F -> bool;
  f_leb : F -> F -> bool;
  f_eqb : F -> F -> bool;
  f_inf : F;
  f_neg_inf : F;
  (** [float(s)]; [None] stands for [ValueError]. *)
  f_of_string : string -> option F;
}.

Section FloatOps.
Context {F : Type} `{PyFloat F}.

(** [min(a, b)] and [max(a, b)] of Python: the first argument wins ties. *)
Definition f_min (a b : F) : F := if f_ltb b a then b else a.
Definition f_max (a b : F) : F := if f_ltb a b then b else a.
(** Truth value of a float: [0.0] is false. *)
Definition f_truthy (a : F) : bool := negb (f_eqb a (f_of_int 0)).
Definition opt_truthy (a : option F) : bool :=
  match a with Some x => f_truthy x | None => false end.
End FloatOps.

(** ** Strings *)

Module Str.

Definition lower_ascii (c : ascii) : ascii :=
  let n := nat_of_ascii c in
  if (65 <=? n)%nat && (n <=? 90)%nat then ascii_of_nat (n + 32) else c.

(** [s.lower()] on ASCII text. *)
Fixpoint lower (s : string) : string :=
  match s with
  | EmptyString => EmptyString
  | String c s' => String (lower_ascii c) (lower s')
  end.

Definition digit_value (c : ascii) : option Z :=
  let n := nat_of_ascii c in
  if (48 <=? n)%nat && (n <=? 57)%nat then Some (Z.of_nat n - 48)
  else if (97 <=? n)%nat && (n <=? 102)%nat then Some (Z.of_nat n - 87)
  else if (65 <=? n)%nat && (n <=? 70)%nat then Some (Z.of_nat n - 55)
  else None.

Fixpoint digits_value (base : Z) (s : string) (acc : Z) : option Z :=
  match s with
  | EmptyString => Some acc
  | String c s' =>
      match digit_value c with
      | Some d => if d <? base then digits_value base s' (base * acc + d) else None
      | None => None
      end
  end.

(** [int(s, 16)] and [int(s)] on the unsigned digit strings the log and
    description patterns capture; [None] stands for [ValueError]. *)
Definition int_of_string (base : Z) (s : string) : option Z :=
  match s with
  | EmptyString => None
  | _ => digits_value base s 0
  end.

Definition starts_with (p s : string) : bool :=
  String.prefix p s.

(** [int(s, 0)]: the prefixes [0x], [0o] and [0b] select the base;
    otherwise base 10, where a leading zero is only accepted when every
    digit is zero. *)
Definition int_of_string_auto (s : string) : option Z :=
  match s with
  | String "0" (String x rest) =>
      if (Ascii.eqb x "x" || Ascii.eqb x "X")%bool then int_of_string 16 rest
      else if (Ascii.eqb x "o" || Ascii.eqb x "O")%bool then int_of_string 8 rest
      else if (Ascii.eqb x "b" || Ascii.eqb x "B")%bool then int_of_string 2 rest
      else match int_of_string 10 s with
           | Some 0 => Some 0
           | _ => None
           end
  | _ => int_of_string 10 s
  end.

End Str.

(** Rationals as a runnable stand-in for [float]. *)
Module QFloat.

Fixpoint split_dot (s : string) (acc : string) : string * option string :=
  match s with
  | EmptyString => (acc, None)
  | String c s' =>
      if Ascii.eqb c "." then (acc, Some s')
      else split_dot s' (acc ++ String c EmptyString)
  end.

Definition of_string (s : string) : option Q :=
  match split_dot s EmptyString with
  | (i, None) => (fun z => inject_Z z) <$> Str.int_of_string 10 i
  | (i, Some f) =>
      match Str.int_of_string 10 i, Str.int_of_string 10 f with
      | Some a, Some b =>
          Some (Qred (inject_Z a + Qmake b (Pos.pow 10 (Pos.of_nat (String.length f)))))
      | _, _ => None
      end
  end.

#[global] Instance q_float : PyFloat Q := {|
  f_of_int := inject_Z;
  f_add := fun a b => Qred (Qplus a b);
  f_sub := fun a b => Qred (Qminus a b);
  f_mul := fun a b => Qred (Qmult a b);
  f_div := fun a b => Qred (Qdiv a b);
  f_abs := Qabs;
  f_ltb := fun a b => negb (Qle_bool b a);
  f_leb := Qle_bool;
  f_eqb := Qeq_bool;
  f_inf := Qmake 1000000000000 1;
  f_neg_inf := Qmake (-1000000000000) 1;
  f_of_string := of_string;
|}.

End QFloat.

Module Text.

(** [p in s] for strings. *)
Fixpoint contains (p s : string) : bool :=
  String.prefix p s ||
  match s with
  | EmptyString => false
  | String _ s' => contains p s'
  end.

Definition is_space (c : ascii) : bool :=
  let n := nat_of_ascii c in
  (n =? 32)%nat || ((9 <=? n)%nat && (n <=? 13)%nat).

Fixpoint split_ws_aux (s : string) (cur : string) : list string :=
  match s with
  | EmptyString => match cur with EmptyString => [] | _ => [cur] end
  | String c s' =>
      if is_space c then
        match cur with
        | EmptyString => split_ws_aux s' EmptyString
        | _ => cur :: split_ws_aux s' EmptyString
        end
      else split_ws_aux s' (cur ++ String c EmptyString)
  end.

(** [s.strip().split()]: the maximal runs of non-blank characters. *)
Definition split_ws (s : string) : list string := split_ws_aux s EmptyString.

(** [s.rstrip('x')]. *)
Fixpoint rstrip_x (s : string) : string :=
  match s with
  | EmptyString => EmptyString
  | String c s' =>
      match rstrip_x s' with
      | EmptyString => if Ascii.eqb c "x" then EmptyString else String c EmptyString
      | r => String c r
      end
  end.

End Text.

(** ** Data model *)

Section DataModel.
Context {F : Type}.

Record LDFSignal : Type := {
  ls_name : string;
  ls_length : Z;
  ls_publisher : string;
  ls_subscriber : string;
  ls_start_bit : option Z;
  ls_unit : option string;
  ls_factor : F;
  ls_offset : F;
  ls_logical_map : gmap Z string;
  ls_encoding_type : string;
  ls_min_value : option F;
  ls_max_value : option F;
}.

Record LDFFrame : Type := {
  lf_name : string;
  lf_id : option Z;
  lf_publisher : option string;
  lf_dlc : option Z;
  lf_signals : list LDFSignal;
  lf_frame_type : string;
  lf_associated_frames : list string;
}.

Record DBCSignal : Type := {
  ds_name : string;
  ds_start_bit : option Z;
  ds_length : option Z;
  ds_factor : F;
  ds_offset : F;
  ds_unit : option string;
  ds_is_big_endian : bool;
  ds_is_signed : bool;
  ds_logical_map : gmap Z string;
  ds_is_multiplexer_switch : bool;
  ds_multiplexer_value : option Z;
}.

(** A value of [DBCMessage.attributes]. *)
Inductive AttrVal : Type :=
| AInt (z : Z)
| ABool (b : bool)
| AStr (s : string).

Record DBCMessage : Type := {
  dm_id : Z;
  dm_name : string;
  dm_dlc : option Z;
  dm_node_name : option string;
  dm_signals : list DBCSignal;
  dm_attributes : list (string * AttrVal);
}.

Record LogEntry : Type := {
  timestamp : F;
  channel : string;
  frame_id : string;
  frame_id_int : Z;
  type : string;
  data : list Z;
  raw_line : string;
  declared_checksum : option Z;
  csm : option string;
  physical_metadata : option (gmap string string);
  event_channel : option Z;
  full_time_tbit : option F;
  header_time_tbit : option F;
}.

(** The value of the [defaultdict]s under [log_stats['error_summary']]. *)
Record Bucket : Type := {
  count : Z;
  first_ts : option F;
  last_ts : option F;
  example_line : option string;
  bucket_frame_name : option string;
}.

Definition empty_bucket : Bucket :=
  {| count := 0; first_ts := None; last_ts := None;
     example_line := None; bucket_frame_name := None |}.

(** [summary['count'] += 1], the first-occurrence fields, [last_ts]. *)
Definition record_in (summary : Bucket) (ts : F) (line : string)
    (fname : option string) : Bucket :=
  match first_ts summary with
  | None =>
      {| count := count summary + 1; first_ts := Some ts; last_ts := Some ts;
         example_line := Some line; bucket_frame_name := fname |}
  | Some t0 =>
      {| count := count summary + 1; first_ts := Some t0; last_ts := Some ts;
         example_line := example_line summary;
         bucket_frame_name := bucket_frame_name summary |}
  end.

End DataModel.
Arguments LDFSignal : clear implicits.
Arguments LDFFrame : clear implicits.
Arguments DBCSignal : clear implicits.
Arguments DBCMessage : clear implicits.
Arguments LogEntry : clear implicits.
Arguments Bucket : clear implicits.

(** ** Per-record LIN validators *)

Section Validators.
Context {F : Type}.
Import Primitives.

(** [validate_lin_checksum], line 2073.  The state is the dictionary
    [log_stats['error_summary']['checksum']]. *)
Definition validate_lin_checksum (entry : LogEntry F)
    (ldf_id_to_frame_map : gmap Z (LDFFrame F))
    (checksum : gmap (Z * Z * Z) (Bucket F)) : result (gmap (Z * Z * Z) (Bucket F)) :=
  if negb (String.eqb (channel entry) "LIN")
     || negb (String.eqb (Str.lower (type entry)) "rx")
  then Ok checksum
  else
  match declared_checksum entry with
  | None => Ok checksum
  | Some declared =>
      (* if not entry.data and entry.csm.lower() != 'enhanced': return *)
      leave <-! match data entry with
                | [] => match csm entry with
                        | None => Raise AttributeError
                        | Some c => Ok (negb (String.eqb (Str.lower c) "enhanced"))
                        end
                | _ :: _ => Ok false
                end ;;
      if leave : bool then Ok checksum
      else
        let frame_definition := ldf_id_to_frame_map !! frame_id_int entry in
        let frame_name_for_log :=
          match frame_definition with
          | Some f => lf_name f
          | None => frame_id entry
          end in
        let data_for_checksum := map PyInt (data entry) in
        let checksum_type := Str.lower (default EmptyString (csm entry)) in
        let with_pid : option (list pyval) :=
          if String.eqb checksum_type "enhanced" then
            match calculate_pid (frame_id_int entry) with
            | Ok pid => Some (PyInt pid :: data_for_checksum)
            | Raise _ => None
            end
          else Some data_for_checksum in
        match with_pid with
        | None => Ok checksum
        | Some data_for_checksum =>
            match calculate_checksum data_for_checksum None with
            | Raise _ => Ok checksum
            | Ok expected_checksum =>
                if negb (expected_checksum =? declared) then
                  let error_key := (frame_id_int entry, expected_checksum, declared) in
                  let summary := default empty_bucket (checksum !! error_key) in
                  Ok (<[error_key :=
                          record_in summary (timestamp entry) (raw_line entry)
                                    (Some frame_name_for_log)]> checksum)
                else Ok checksum
            end
        end
  end.

(** The PID that [validate_id_parity] recomputes from the low six bits. *)
Definition expected_pid (pid : Z) : Z :=
  let raw_id := Z.land pid 0x3F in
  let p0 :=
    Z.land (Z.lxor (Z.lxor (Z.lxor (Z.shiftr raw_id 0) (Z.shiftr raw_id 1))
                           (Z.shiftr raw_id 2))
                   (Z.shiftr raw_id 4)) 1 in
  let p1 :=
    Z.land (Z.lnot (Z.lxor (Z.lxor (Z.lxor (Z.shiftr raw_id 1) (Z.shiftr raw_id 3))
                                   (Z.shiftr raw_id 4))
                           (Z.shiftr raw_id 5))) 1 in
  Z.lor (Z.lor raw_id (Z.shiftl p0 6)) (Z.shiftl p1 7).

(** [validate_id_parity], line 2292.  The state is
    [log_stats['error_summary']['parity']]. *)
Definition validate_id_parity (entry : LogEntry F)
    (parity : gmap Z (Bucket F)) : gmap Z (Bucket F) :=
  let pid := frame_id_int entry in
  if negb (String.eqb (channel entry) "LIN") || (pid <? 0x40) then parity
  else if negb (expected_pid pid =? pid) then
    let rec := default empty_bucket (parity !! pid) in
    <[pid := record_in rec (timestamp entry) (raw_line entry)
                       (bucket_frame_name rec)]> parity
  else parity.

End Validators.

(** ** Log tokenizer

    The regular expressions of lines 144-153 are matched by Python's [re]
    engine; a line of the log is its stripped text together with the
    result of each [PATTERN.match] call, as the dictionary of its named
    groups that took part in the match ([None] when the pattern does not
    match). *)

Definition groupdict : Type := gmap string string.

Record LineMatches : Type := {
  m_spike : option groupdict;
  m_transerr : option groupdict;
  m_rcverr : option groupdict;
  m_lin : option groupdict;
  m_event : option groupdict;
  m_canfd : option groupdict;
  m_can : option groupdict;
}.

Record Line : Type := {
  raw_line_stripped : string;
  matches : LineMatches;
}.

(** [match_dict.get(k)] used as a condition: present and not empty. *)
Definition group_truthy (d : groupdict) (k : string) : option string :=
  match d !! k with
  | Some EmptyString => None
  | r => r
  end.

Definition no_match : LineMatches :=
  {| m_spike := None; m_transerr := None; m_rcverr := None; m_lin := None;
     m_event := None; m_canfd := None; m_can := None |}.

Section Tokenizer.
Context {F : Type} `{PyFloat F}.

Definition hex_bytes (s : string) : option (list Z) :=
  mapM (Str.int_of_string 16) (Text.split_ws s).

(** [float(d[k]) if d.get(k) else None]; the outer [None] is [ValueError]. *)
Definition optional_float (d : groupdict) (k : string) : option (option F) :=
  match group_truthy d k with
  | None => Some None
  | Some s => Some <$> f_of_string s
  end.

(** The same conversion under its own [try ... except ValueError: pass]. *)
Definition tolerant_float (d : groupdict) (k : string) : option F :=
  match group_truthy d k with
  | None => None
  | Some s => f_of_string s
  end.

Definition physical_keys : list string :=
  ["sof"; "br"; "break_info"; "eoh"; "eob"; "eof"; "rbr"; "hbr"; "hso"; "rso"]%string.

Definition bare_entry (ts : F) (ch fid : string) (fid_int : Z) (ty : string)
    (bytes : list Z) (line : string) : LogEntry F :=
  {| timestamp := ts; channel := ch; frame_id := fid; frame_id_int := fid_int;
     type := ty; data := bytes; raw_line := line; declared_checksum := None;
     csm := None; physical_metadata := None; event_channel := None;
     full_time_tbit := None; header_time_tbit := None |}.

(** The body of the [try] of [parse_log], lines 2350-2427, for one line:
    [None] is [log_entry = None], also after a caught [ValueError],
    [TypeError] or [KeyError]. *)
Definition parse_line (l : Line) : option (LogEntry F) :=
  let line := raw_line_stripped l in
  let m := matches l in
  match m_spike m with
  | Some d =>
      ts ← d !! "ts"%string ≫= f_of_string;
      Some (bare_entry ts "LIN" "Spike" (-1) "Spike" [] line)
  | None =>
  match (match m_transerr m with Some d => Some d | None => m_rcverr m end) with
  | Some d =>
      let err_type : string := match m_transerr m with Some _ => "TransmErr" | None => "RcvError" end in
      let frame_id_str := default err_type (group_truthy d "id") in
      let frame_id_int :=
        if String.eqb frame_id_str err_type then -1
        else default (-1) (Str.int_of_string 16 frame_id_str) in
      let full_time_val := tolerant_float d "full_time" in
      let header_time_val := tolerant_float d "header_time" in
      ts ← d !! "ts"%string ≫= f_of_string;
      Some {| timestamp := ts; channel := "LIN"; frame_id := frame_id_str;
              frame_id_int := frame_id_int; type := err_type; data := [];
              raw_line := line; declared_checksum := None; csm := None;
              physical_metadata := None; event_channel := None;
              full_time_tbit := full_time_val;
              header_time_tbit := header_time_val |}
  | None =>
  match m_lin m with
  | Some d =>
      frame_id_str ← d !! "id"%string;
      frame_id_int ← Str.int_of_string 16 frame_id_str;
      data_bytes ← match group_truthy d "data" with
                   | Some s => hex_bytes s
                   | None => Some []
                   end;
      checksum_val ← match group_truthy d "checksum" with
                     | Some s => Some <$> Str.int_of_string 16 s
                     | None => Some None
                     end;
      let physical_metadata : gmap string string :=
        list_to_map (omap (fun k => (fun v => (k, v)) <$> group_truthy d k)
                          physical_keys) in
      full_time_val ← optional_float d "full_time";
      header_time_val ← optional_float d "header_time";
      ts ← d !! "ts"%string ≫= f_of_string;
      ty ← d !! "type"%string;
      Some {| timestamp := ts; channel := "LIN"; frame_id := frame_id_str;
              frame_id_int := frame_id_int; type := ty; data := data_bytes;
              raw_line := line; declared_checksum := checksum_val;
              csm := d !! "csm"%string;
              physical_metadata :=
                if decide (physical_metadata = ∅) then None
                else Some physical_metadata;
              event_channel := None;
              full_time_tbit := full_time_val;
              header_time_tbit := header_time_val |}
  | None =>
  match m_canfd m with
  | Some d =>
      ts ← d !! "ts"%string ≫= f_of_string;
      ch ← d !! "channel"%string;
      fid ← d !! "id"%string;
      fid_int ← Str.int_of_string 16 fid;
      ty ← d !! "type"%string;
      bytes ← match group_truthy d "data" with
              | Some s => hex_bytes s
              | None => Some []
              end;
      Some (bare_entry ts ("CANFD" ++ ch) fid fid_int ty bytes line)
  | None =>
  match m_can m with
  | Some d =>
      fid ← d !! "id"%string;
      let frame_id_str_numeric := Text.rstrip_x (Str.lower fid) in
      ts ← d !! "ts"%string ≫= f_of_string;
      ch ← d !! "channel"%string;
      fid_int ← Str.int_of_string 16 frame_id_str_numeric;
      ty ← d !! "type"%string;
      bytes ← match group_truthy d "data" with
              | Some s => hex_bytes s
              | None => Some []
              end;
      Some (bare_entry ts ("CAN" ++ ch) fid fid_int ty bytes line)
  | None =>
  match m_event m with
  | Some d =>
      ts ← d !! "ts"%string ≫= f_of_string;
      ev ← match group_truthy d "event_channel" with
           | Some s => Some <$> Str.int_of_string 10 s
           | None => Some None
           end;
      Some {| timestamp := ts; channel := "LIN"; frame_id := "SleepModeEvent";
              frame_id_int := -1; type := "SleepModeEvent"; data := [];
              raw_line := line; declared_checksum := None; csm := None;
              physical_metadata := None; event_channel := ev;
              full_time_tbit := None; header_time_tbit := None |}
  | None => None
  end end end end end end.

(** [parse_log], line 2309: the entries it yields, in order.  Blank lines
    never reach the patterns. *)
Definition parse_log (lines : list Line) : list (LogEntry F) :=
  omap (fun l => match raw_line_stripped l with
                 | EmptyString => None
                 | _ => parse_line l
                 end) lines.

End Tokenizer.

(** ** Gateway data *)

Section GatewayData.
Context {F : Type}.

(** The signal object a resolved mapping carries: an [LDFSignal] on LIN, a
    [DBCSignal] on CAN. *)
Inductive SignalObj : Type :=
| LinSig (s : LDFSignal F)
| CanSig (s : DBCSignal F).

Definition so_start_bit (s : SignalObj) : option Z :=
  match s with LinSig l => ls_start_bit l | CanSig c => ds_start_bit c end.
Definition so_length (s : SignalObj) : option Z :=
  match s with LinSig l => Some (ls_length l) | CanSig c => ds_length c end.
(** [getattr(sig_info, 'is_big_endian', False)] *)
Definition so_is_big_endian (s : SignalObj) : bool :=
  match s with LinSig _ => false | CanSig c => ds_is_big_endian c end.
(** [getattr(sig_info, 'is_signed', False)] *)
Definition so_is_signed (s : SignalObj) : bool :=
  match s with LinSig _ => false | CanSig c => ds_is_signed c end.

Record Mapping : Type := {
  map_index : Z;
  source_network : string;
  source_message : string;
  source_signal : string;
  target_network : string;
  target_message : string;
  target_signal : string;
  source_signal_obj : option SignalObj;
  target_signal_obj : option SignalObj;
}.

Record LatencyStats : Type := {
  lat_sum : F;
  lat_min : F;
  lat_max : F;
  lat_count : Z;
  lat_average : option F;
}.

Record MismatchExample : Type := {
  ex_ts_source : F;
  ex_raw_source : Z;
  ex_phys_source : F;
  ex_logical_source : string;
  ex_ts_target : F;
  ex_raw_target : Z;
  ex_phys_target : F;
  ex_logical_target : string;
  ex_type : string;
  ex_latency_ms : F;
}.

(** The value of [log_stats['gateway_results']], line 1434. *)
Record GatewayResult : Type := {
  comparisons : Z;
  matches_ : Z;
  mismatches_value : Z;
  mismatches_type : Z;
  mismatches_timing : Z;
  mismatch_examples : list MismatchExample;
  mapping_info : option Mapping;
  latency_stats : LatencyStats;
}.

(** The lookup tables built in [main]: [gateway_lookup[role][network][id]]. *)
Record GatewayLookup : Type := {
  lookup_source : gmap (string * Z) (list Mapping);
  lookup_target : gmap (string * Z) (list Mapping);
}.

End GatewayData.
Arguments SignalObj : clear implicits.
Arguments Mapping : clear implicits.
Arguments LatencyStats : clear implicits.
Arguments MismatchExample : clear implicits.
Arguments GatewayResult : clear implicits.
Arguments GatewayLookup : clear implicits.

Section GatewayCapture.
Context {F : Type} `{PyFloat F}.
Import Primitives.

(** The factory of the [defaultdict] at line 1434. *)
Definition new_gateway_result : GatewayResult F :=
  {| comparisons := 0; matches_ := 0; mismatches_value := 0;
     mismatches_type := 0; mismatches_timing := 0;
     mismatch_examples := []; mapping_info := None;
     latency_stats := {| lat_sum := f_of_int 0; lat_min := f_inf;
                         lat_max := f_neg_inf; lat_count := 0;
                         lat_average := None |} |}.

Definition events : Type := gmap Z (list (F * Z)).

(** One turn of the loops at lines 2706 and 2714: [sig_obj] picks
    [_source_signal_obj] or [_target_signal_obj]. *)
Definition capture_one (sig_obj : Mapping F -> option (SignalObj F))
    (entry : LogEntry F) (m : Mapping F)
    (st : events * gmap Z (GatewayResult F))
    : result (events * gmap Z (GatewayResult F)) :=
  let '(evs, results) := st in
  match sig_obj m with
  | Some sig_info =>
      match so_start_bit sig_info, so_length sig_info, data entry with
      | Some start_bit, Some len, _ :: _ =>
          raw_val <-! extract_signal_value (data entry) start_bit len
                        (so_is_big_endian sig_info) (so_is_signed sig_info) ;;
          let evs' :=
            <[map_index m :=
                default [] (evs !! map_index m) ++ [(timestamp entry, raw_val)]]> evs in
          let res := default new_gateway_result (results !! map_index m) in
          let res' :=
            match mapping_info res with
            | None =>
                {| comparisons := comparisons res; matches_ := matches_ res;
                   mismatches_value := mismatches_value res;
                   mismatches_type := mismatches_type res;
                   mismatches_timing := mismatches_timing res;
                   mismatch_examples := mismatch_examples res;
                   mapping_info := Some m;
                   latency_stats := latency_stats res |}
            | Some _ => res
            end in
          Ok (evs', <[map_index m := res']> results)
      | _, _, _ => Ok st
      end
  | None => Ok st
  end.

Fixpoint capture_all (sig_obj : Mapping F -> option (SignalObj F))
    (entry : LogEntry F) (maps : list (Mapping F))
    (st : events * gmap Z (GatewayResult F))
    : result (events * gmap Z (GatewayResult F)) :=
  match maps with
  | [] => Ok st
  | m :: rest =>
      st' <-! capture_one sig_obj entry m st ;;
      capture_all sig_obj entry rest st'
  end.

End GatewayCapture.

(** ** Analysis engine: the record loop of [process_log_file] *)

Section Engine.
Context {F : Type} `{PyFloat F}.

Record Config : Type := {
  (** [config.get('enable_checksum_validation', True)] *)
  enable_checksum_validation : bool;
  (** [config.get('enable_gateway_validation')] *)
  enable_gateway_validation : bool;
  (** [config.get('gateway_tolerance', DEFAULT_GATEWAY_TOLERANCE_S)] *)
  gateway_tolerance : F;
}.

(** The keys of [log_stats] that the modelled statements read or write. *)
Record LogStats : Type := {
  (** [_internal_parse_stats] *)
  processed : Z;
  skipped : Z;
  (** [log_info] *)
  start_time : option F;
  end_time : option F;
  lin_entries : Z;
  can_entries : Z;
  (** [network_cycle_state['active']] *)
  network_active : bool;
  (** [error_summary['checksum']] and [error_summary['parity']] *)
  checksum_errors : gmap (Z * Z * Z) (Bucket F);
  parity_errors : gmap Z (Bucket F);
  gateway_results : gmap Z (GatewayResult F);
}.

(** [initialize_log_stats], line 1392. *)
Definition initialize_log_stats : LogStats :=
  {| processed := 0; skipped := 0; start_time := None; end_time := None;
     lin_entries := 0; can_entries := 0; network_active := false;
     checksum_errors := ∅; parity_errors := ∅; gateway_results := ∅ |}.

(** [log_stats] with the two event buffers local to [process_log_file]. *)
Record RunState : Type := {
  log_stats : LogStats;
  gateway_source_events : events (F := F);
  gateway_target_events : events (F := F);
}.

(** The [active] flag as [update_network_cycle_state], line 1576, leaves it. *)
Definition update_network_cycle_active (entry : LogEntry F) (active : bool) : bool :=
  let is_sleep_mode_event := String.eqb (type entry) "SleepModeEvent" in
  let raw_line_lower := Str.lower (raw_line entry) in
  let is_bus_wake_event :=
    is_sleep_mode_event
    && bool_decide (event_channel entry = Some 1)
    && (Text.contains "waking up" raw_line_lower
        || Text.contains "wake up" raw_line_lower) in
  let is_bus_sleep_command :=
    (frame_id_int entry =? 0x3C)
    && match data entry with b :: _ => b =? 0 | [] => false end in
  let is_any_sleep_event :=
    (is_sleep_mode_event && Text.contains "entering sleep mode" raw_line_lower)
    || is_bus_sleep_command in
  let active1 :=
    if negb active then
      if is_bus_wake_event then true
      else if negb is_any_sleep_event
              && String.eqb (channel entry) "LIN"
              && bool_decide (type entry ∈ ["Rx"; "Tx"; "TransmErr"; "RcvError"]%string)
      then true else active
    else active in
  if active1 then negb is_any_sleep_event else active1.

Definition set_counts (s : LogStats) (p sk : Z) (st en : option F) : LogStats :=
  {| processed := p; skipped := sk; start_time := st; end_time := en;
     lin_entries := lin_entries s; can_entries := can_entries s;
     network_active := network_active s;
     checksum_errors := checksum_errors s; parity_errors := parity_errors s;
     gateway_results := gateway_results s |}.

(** The body of [for entry in parse_log(log_path)], lines 2630-2720.

    Kept: the parse counters, the log bounds, the CAN channel gate, the
    network cycle flag, the parity and checksum validators and the gateway
    event capture.  Left out: bus-load windowing, ID/DLC, transmission
    error, physical layer, schedule and signal statistics, which write to
    other keys of [log_stats]. *)
Definition process_entry (config : Config)
    (ldf_id_to_frame : gmap Z (LDFFrame F))
    (valid_can_channels : list string)
    (gateway_lookup : GatewayLookup F)
    (entry : LogEntry F) (st : RunState) : result RunState :=
  let ts := timestamp entry in
  let s := log_stats st in
  let s := set_counts s (processed s + 1) (skipped s)
             (match start_time s with None => Some ts | t => t end) (Some ts) in
  if Str.starts_with "CAN" (channel entry)
     && negb (bool_decide (channel entry ∈ valid_can_channels))
  then
    Ok {| log_stats := set_counts s (processed s) (skipped s + 1)
                                  (start_time s) (end_time s);
          gateway_source_events := gateway_source_events st;
          gateway_target_events := gateway_target_events st |}
  else
    let active := update_network_cycle_active entry (network_active s) in
    let net_type := channel entry in
    let is_lin := String.eqb (channel entry) "LIN" in
    let parity' :=
      if is_lin then validate_id_parity entry (parity_errors s)
      else parity_errors s in
    checksum' <-!
      (if is_lin && enable_checksum_validation config
       then validate_lin_checksum entry ldf_id_to_frame (checksum_errors s)
       else Ok (checksum_errors s)) ;;
    let s :=
      {| processed := processed s; skipped := skipped s;
         start_time := start_time s; end_time := end_time s;
         lin_entries := if is_lin then lin_entries s + 1 else lin_entries s;
         can_entries :=
           if negb is_lin && Str.starts_with "CAN" (channel entry)
           then can_entries s + 1 else can_entries s;
         network_active := active;
         checksum_errors := checksum';
         parity_errors := parity';
         gateway_results := gateway_results s |} in
    if enable_gateway_validation config && active then
      let src_maps :=
        default [] (lookup_source gateway_lookup !! (net_type, frame_id_int entry)) in
      src <-! capture_all source_signal_obj entry src_maps
                (gateway_source_events st, gateway_results s) ;;
      let '(src_evs, results) := src in
      let tgt_maps :=
        default [] (lookup_target gateway_lookup !! (net_type, frame_id_int entry)) in
      tgt <-! capture_all target_signal_obj entry tgt_maps
                (gateway_target_events st, results) ;;
      let '(tgt_evs, results) := tgt in
      Ok {| log_stats :=
              {| processed := processed s; skipped := skipped s;
                 start_time := start_time s; end_time := end_time s;
                 lin_entries := lin_entries s; can_entries := can_entries s;
                 network_active := network_active s;
                 checksum_errors := checksum_errors s;
                 parity_errors := parity_errors s;
                 gateway_results := results |};
            gateway_source_events := src_evs;
            gateway_target_events := tgt_evs |}
    else
      Ok {| log_stats := s;
            gateway_source_events := gateway_source_events st;
            gateway_target_events := gateway_target_events st |}.

(** The CAN channel gate of line 2671, as a test on a record. *)
Definition gated (valid_can_channels : list string) (entry : LogEntry F) : bool :=
  Str.starts_with "CAN" (channel entry)
  && negb (bool_decide (channel entry ∈ valid_can_channels)).

Fixpoint process_entries (config : Config)
    (ldf_id_to_frame : gmap Z (LDFFrame F))
    (valid_can_channels : list string)
    (gateway_lookup : GatewayLookup F)
    (entries : list (LogEntry F)) (st : RunState) : result RunState :=
  match entries with
  | [] => Ok st
  | entry :: rest =>
      st' <-! process_entry config ldf_id_to_frame valid_can_channels
                gateway_lookup entry st ;;
      process_entries config ldf_id_to_frame valid_can_channels
        gateway_lookup rest st'
  end.

End Engine.
Arguments Config : clear implicits.
Arguments LogStats : clear implicits.
Arguments RunState : clear implicits.

(** ** LIN description data *)

(** A schedule table slot: [{'frame_name': ..., 'delay_ms': ...}]. *)
Record ScheduleEntry : Type := {
  frame_name : string;
  delay_ms : Z;
}.

#[export] Instance ScheduleEntry_eq_dec : EqDecision ScheduleEntry.
Proof. solve_decision. Defined.

Section Description.
Context {F : Type}.

(** [LDFData.nodes] *)
Record Nodes : Type := {
  master : option string;
  master_timebase_s : option F;
  master_jitter_s : F;
  slaves : list string;
  slaves_with_error_signal : list (string * string);
}.

(** [LDFData], line 75; dictionaries in insertion order. *)
Record LDFData : Type := {
  nodes : Nodes;
  frames : list (string * LDFFrame F);
  schedules : list (string * list ScheduleEntry);
}.

End Description.
Arguments Nodes : clear implicits.
Arguments LDFData : clear implicits.

(** Python dictionaries as association lists in insertion order. *)
Module Dict.
Section Dict.
Context {K V : Type} `{EqDecision K}.

Fixpoint get (d : list (K * V)) (k : K) : option V :=
  match d with
  | [] => None
  | (k', v) :: rest => if decide (k' = k) then Some v else get rest k
  end.

(** [d[k] = v]: an existing key keeps its place. *)
Fixpoint set (d : list (K * V)) (k : K) (v : V) : list (K * V) :=
  match d with
  | [] => [(k, v)]
  | (k', v') :: rest =>
      if decide (k' = k) then (k, v) :: rest else (k', v') :: set rest k v
  end.

Definition mem (d : list (K * V)) (k : K) : bool :=
  match get d k with Some _ => true | None => false end.

Definition keys (d : list (K * V)) : list K := map fst d.
Definition values (d : list (K * V)) : list V := map snd d.

End Dict.
End Dict.

(** ** Gateway correlator (post-pass) *)

Section Correlator.
Context {F : Type} `{PyFloat F}.

(** The dictionary [_get_comparison_details], line 935, returns. *)
Record Details : Type := {
  d_factor : F;
  d_offset : F;
  d_logical_map : gmap Z string;
  d_is_signed : bool;
  d_length : option Z;
  d_encoding_type : string;
  d_unit : option string;
}.

Definition _get_comparison_details (signal_name network_type : string)
    (ldf_signals_by_name : gmap string (LDFSignal F))
    (dbc_signals_by_name : gmap string (DBCSignal F)) : option Details :=
  if String.eqb network_type "LIN" then
    s ← ldf_signals_by_name !! signal_name;
    Some {| d_factor := ls_factor s; d_offset := ls_offset s;
            d_logical_map := ls_logical_map s; d_is_signed := false;
            d_length := Some (ls_length s);
            d_encoding_type := ls_encoding_type s; d_unit := ls_unit s |}
  else if Str.starts_with "CAN" network_type then
    s ← dbc_signals_by_name !! signal_name;
    Some {| d_factor := ds_factor s; d_offset := ds_offset s;
            d_logical_map := ds_logical_map s; d_is_signed := ds_is_signed s;
            d_length := ds_length s;
            d_encoding_type := "physical"; d_unit := ds_unit s |}
  else None.

(** [convert_signal_value], line 244. *)
Definition convert_signal_value (raw_value : Z) (factor offset : F) : F :=
  f_add (f_mul (f_of_int raw_value) factor) offset.

(** [PHYSICAL_COMPARISON_EPSILON = 1e-6] *)
Definition PHYSICAL_COMPARISON_EPSILON : F :=
  f_div (f_of_int 1) (f_of_int 1000000).

Definition sign_extend (raw : Z) (details : Details) : Z :=
  match d_length details with
  | Some len_bits =>
      if d_is_signed details && (0 <? len_bits) then
        let sign_bit_mask := Z.shiftl 1 (len_bits - 1) in
        if negb (Z.land raw sign_bit_mask =? 0) then raw - Z.shiftl 1 len_bits
        else raw
      else raw
  | None => raw
  end.

(** [compare_gateway_values], line 958. *)
Definition compare_gateway_values (source_val_raw target_val_raw : Z)
    (source_details target_details : Details) : bool * string :=
  let src_has_logic := bool_decide (is_Some (d_logical_map source_details !! source_val_raw)) in
  let tgt_has_logic := bool_decide (is_Some (d_logical_map target_details !! target_val_raw)) in
  if src_has_logic && tgt_has_logic then
    (source_val_raw =? target_val_raw, "raw_logical"%string)
  else if negb src_has_logic && negb tgt_has_logic then
    let src_val_phys :=
      f_add (f_mul (f_of_int (sign_extend source_val_raw source_details))
                   (d_factor source_details)) (d_offset source_details) in
    let tgt_val_phys :=
      f_add (f_mul (f_of_int (sign_extend target_val_raw target_details))
                   (d_factor target_details)) (d_offset target_details) in
    (f_ltb (f_abs (f_sub src_val_phys tgt_val_phys)) PHYSICAL_COMPARISON_EPSILON,
     "physical"%string)
  else (false, "hybrid_mismatch"%string).

(** [while source_pointer < n and sources[source_pointer][0] < bound]: the
    pointer is kept as the suffix [sources[source_pointer:]]. *)
Fixpoint skip_stale (remaining : list (F * Z)) (bound : F) : list (F * Z) :=
  match remaining with
  | [] => []
  | (ts_source, raw) :: rest =>
      if f_ltb ts_source bound then skip_stale rest bound else remaining
  end.

(** [for i in range(source_pointer, n)] with its [break]. *)
Fixpoint best_candidate (remaining : list (F * Z)) (ts_target : F)
    (best : option (F * Z)) : option (F * Z) :=
  match remaining with
  | [] => best
  | (ts_source, raw) :: rest =>
      if f_leb ts_target ts_source then best
      else best_candidate rest ts_target (Some (ts_source, raw))
  end.

Definition bump_latency (l : LatencyStats F) (latency_s : F) : LatencyStats F :=
  {| lat_sum := f_add (lat_sum l) latency_s;
     lat_min := f_min (lat_min l) latency_s;
     lat_max := f_max (lat_max l) latency_s;
     lat_count := lat_count l + 1;
     lat_average := lat_average l |}.

(** The body of [for ts_target, raw_target in targets], lines 2484-2524. *)
Definition correlate_target (tolerance : F) (src_details tgt_details : Details)
    (target : F * Z) (st : list (F * Z) * GatewayResult F)
    : list (F * Z) * GatewayResult F :=
  let '(remaining, res) := st in
  let '(ts_target, raw_target) := target in
  let remaining := skip_stale remaining (f_sub ts_target tolerance) in
  let best_source_candidate := best_candidate remaining ts_target None in
  let n := comparisons res + 1 in
  match best_source_candidate with
  | Some (ts_source, raw_source) =>
      let latency_s := f_sub ts_target ts_source in
      let lat :=
        if f_leb (f_of_int 0) latency_s
        then bump_latency (latency_stats res) latency_s
        else latency_stats res in
      let '(is_match, c_type) :=
        compare_gateway_values raw_source raw_target src_details tgt_details in
      if is_match then
        (remaining,
         {| comparisons := n; matches_ := matches_ res + 1;
            mismatches_value := mismatches_value res;
            mismatches_type := mismatches_type res;
            mismatches_timing := mismatches_timing res;
            mismatch_examples := mismatch_examples res;
            mapping_info := mapping_info res; latency_stats := lat |})
      else
        let is_type := String.eqb c_type "hybrid_mismatch" in
        let example :=
          {| ex_ts_source := ts_source; ex_raw_source := raw_source;
             ex_phys_source :=
               convert_signal_value raw_source (d_factor src_details) (d_offset src_details);
             ex_logical_source :=
               default "-"%string (d_logical_map src_details !! raw_source);
             ex_ts_target := ts_target; ex_raw_target := raw_target;
             ex_phys_target :=
               convert_signal_value raw_target (d_factor tgt_details) (d_offset tgt_details);
             ex_logical_target :=
               default "-"%string (d_logical_map tgt_details !! raw_target);
             ex_type := c_type;
             ex_latency_ms := f_mul latency_s (f_of_int 1000) |} in
        (remaining,
         {| comparisons := n; matches_ := matches_ res;
            mismatches_value :=
              if is_type then mismatches_value res else mismatches_value res + 1;
            mismatches_type :=
              if is_type then mismatches_type res + 1 else mismatches_type res;
            mismatches_timing := mismatches_timing res;
            mismatch_examples := mismatch_examples res ++ [example];
            mapping_info := mapping_info res; latency_stats := lat |})
  | None =>
      (remaining,
       {| comparisons := n; matches_ := matches_ res;
          mismatches_value := mismatches_value res;
          mismatches_type := mismatches_type res;
          mismatches_timing := mismatches_timing res + 1;
          mismatch_examples := mismatch_examples res;
          mapping_info := mapping_info res;
          latency_stats := latency_stats res |})
  end.

Definition correlate_targets (tolerance : F) (src_details tgt_details : Details)
    (sources targets : list (F * Z)) (res : GatewayResult F) : GatewayResult F :=
  snd (foldl (fun st target =>
                correlate_target tolerance src_details tgt_details target st)
             (sources, res) targets).

(** [{s.name: s for f in ldf_data.frames.values() for s in f.signals}] *)
Definition ldf_sigs_by_name (ldf_data : LDFData F) : gmap string (LDFSignal F) :=
  foldl (fun acc s => <[ls_name s := s]> acc) ∅
        (concat (map (fun f => lf_signals (snd f)) (frames ldf_data))).

(** [{sig.name: sig for dbc in can_dbcs.values() for msg in dbc.values()
      for sig in msg.signals}] *)
Definition dbc_sigs_by_name (can_dbcs : list (string * list (Z * DBCMessage F)))
    : gmap string (DBCSignal F) :=
  foldl (fun acc s => <[ds_name s := s]> acc) ∅
        (concat (map (fun m => dm_signals (snd m))
                     (concat (map snd can_dbcs)))).

(** The body of [for map_idx, targets in target_events.items()]. *)
Definition correlate_mapping (tolerance : F)
    (ldf_sigs : gmap string (LDFSignal F)) (dbc_sigs : gmap string (DBCSignal F))
    (source_events : events (F := F))
    (results : gmap Z (GatewayResult F)) (item : Z * list (F * Z))
    : gmap Z (GatewayResult F) :=
  let '(map_idx, targets) := item in
  let sources := default [] (source_events !! map_idx) in
  match sources, targets with
  | [], _ | _, [] => results
  | _ :: _, _ :: _ =>
      let res := default new_gateway_result (results !! map_idx) in
      let results := <[map_idx := res]> results in
      match mapping_info res with
      | None => results
      | Some info =>
          match _get_comparison_details (source_signal info) (source_network info)
                  ldf_sigs dbc_sigs,
                _get_comparison_details (target_signal info) (target_network info)
                  ldf_sigs dbc_sigs with
          | Some src_details, Some tgt_details =>
              <[map_idx := correlate_targets tolerance src_details tgt_details
                             sources targets res]> results
          | _, _ => results
          end
      end
  end.

(** [_post_process_gateway_correlation], line 2461.  Each mapping index
    only touches its own result, so the order in which the indices of
    [target_events] are visited does not show in the outcome. *)
Definition _post_process_gateway_correlation
    (results : gmap Z (GatewayResult F))
    (source_events target_events : events (F := F))
    (tolerance : F) (ldf_data : LDFData F)
    (can_dbcs : list (string * list (Z * DBCMessage F)))
    : gmap Z (GatewayResult F) :=
  let ldf_sigs := ldf_sigs_by_name ldf_data in
  let dbc_sigs := dbc_sigs_by_name can_dbcs in
  foldl (correlate_mapping tolerance ldf_sigs dbc_sigs source_events)
        results (map_to_list target_events).

End Correlator.
Arguments Details : clear implicits.

(** ** Schedule grouper *)

Module Sorting.

Fixpoint insert (x : string) (l : list string) : list string :=
  match l with
  | [] => [x]
  | y :: rest => if String.leb x y then x :: l else y :: insert x rest
  end.

(** [sorted(names)]: strings in lexicographic order of their characters.
    On a total order every sorting algorithm returns the same list when
    the elements are distinct, as dictionary keys are. *)
Definition sorted (l : list string) : list string := foldr insert [] l.

End Sorting.

Section Grouper.
(** [md5(json.dumps(entries, sort_keys=True).encode('utf-8')).hexdigest()],
    the library part of line 672-673. *)
Variable content_hash : list ScheduleEntry -> string.

(** [schedules[name]]; the names looked up are always keys. *)
Definition body_of (schedules : list (string * list ScheduleEntry))
    (name : string) : list ScheduleEntry :=
  default [] (Dict.get schedules name).

Record GroupState : Type := {
  hash_to_representative_name : gmap string string;
  original_name_to_representative_name_map : gmap string string;
  representative_to_all_grouped_names_map : list (string * list string);
}.

(** The body of [for original_name in sorted_original_schedule_names],
    lines 666-678; [entries] is always a list here. *)
Definition group_step (schedules : list (string * list ScheduleEntry))
    (st : GroupState) (original_name : string) : GroupState :=
  let entries := body_of schedules original_name in
  let content_hash := content_hash entries in
  let h2r :=
    match hash_to_representative_name st !! content_hash with
    | None => <[content_hash := original_name]> (hash_to_representative_name st)
    | Some _ => hash_to_representative_name st
    end in
  let representative_name := default original_name (h2r !! content_hash) in
  let grouped := representative_to_all_grouped_names_map st in
  {| hash_to_representative_name := h2r;
     original_name_to_representative_name_map :=
       <[original_name := representative_name]>
         (original_name_to_representative_name_map st);
     representative_to_all_grouped_names_map :=
       Dict.set grouped representative_name
         (default [] (Dict.get grouped representative_name) ++ [original_name]) |}.

(** The keys of the grouping dictionary, in insertion order. *)
Definition representatives (st : GroupState) : list string :=
  Dict.keys (representative_to_all_grouped_names_map st).

Definition group_init : GroupState :=
  {| hash_to_representative_name := ∅;
     original_name_to_representative_name_map := ∅;
     representative_to_all_grouped_names_map := [] |}.

Definition group_loop (schedules : list (string * list ScheduleEntry))
    : GroupState :=
  foldl (group_step schedules) group_init
        (Sorting.sorted (Dict.keys schedules)).

(** [group_equivalent_schedules], line 656. *)
Definition group_equivalent_schedules
    (schedules : list (string * list ScheduleEntry))
    : list (string * list ScheduleEntry) * gmap string string
      * list (string * list string) :=
  match schedules with
  | [] => ([], ∅, [])
  | _ =>
      let st := group_loop schedules in
      let grouped := representative_to_all_grouped_names_map st in
      (map (fun rep_name => (rep_name, body_of schedules rep_name))
           (representatives st),
       original_name_to_representative_name_map st,
       map (fun '(rep_name, names) =>
              (rep_name, Sorting.sorted (remove_dups names))) grouped)
  end.

Definition unique_schedules (schedules : list (string * list ScheduleEntry))
    : list (string * list ScheduleEntry) :=
  (group_equivalent_schedules schedules).1.1.

(** Two tables are grouped together when they get the same representative. *)
Definition grouped_together (schedules : list (string * list ScheduleEntry))
    (a b : string) : Prop :=
  exists rep,
    (group_equivalent_schedules schedules).1.2 !! a = Some rep /\
    (group_equivalent_schedules schedules).1.2 !! b = Some rep.

End Grouper.

(** ** Schedule adherence *)

Section Schedule.
Context {F : Type} `{PyFloat F}.

Inductive EventDetails : Type :=
| TriggerFrame (trigger_frame : string)
| Mismatch (expected : list string) (observed : string)
| NoDetails.

(** An element of [state['cycle_log']]. *)
Record CycleEvent : Type := {
  ev_ts : F;
  ev_type : string;
  ev_details : EventDetails;
}.

(** [log_stats['schedule_runtime_state']], line 1420. *)
Record ScheduleState : Type := {
  active_schedules : list string;
  current_index : Z;
  last_event_timestamp : option F;
  cycle_start_timestamp : option F;
  cycle_log : list CycleEvent;
  cycle_id : Z;
  has_timing_errors : bool;
  (** the key ['id'], absent until the first cycle starts *)
  id_ : option Z;
}.

(** An element of [analysis_log['cycles']]. *)
Record CycleRecord : Type := {
  cr_id : option Z;
  cr_schedule_name : string;
  cr_start_ts : option F;
  cr_end_ts : F;
  cr_status : string;
  cr_events : list CycleEvent;
  cr_had_timing_errors : bool;
}.

(** An element of [analysis_log['global_errors']]. *)
Record GlobalError : Type := {
  ge_ts : F;
  ge_type : string;
  ge_frame_name : string;
}.

Record SlotStats : Type := {
  sum_ms : F;
  sum_sq_ms : F;
  slot_count : Z;
  min_ms : F;
  max_ms : F;
}.

Record TimingMismatch : Type := {
  tm_count : Z;
  sum_observed_ms : F;
  min_observed_ms : F;
  max_observed_ms : F;
  expected_ms : option Z;
  tm_frame_name : string;
  tm_publisher : option string;
  tm_first_ts : option F;
  tm_last_ts : option F;
}.

Record Reliability : Type := {
  requests : Z;
  responses : Z;
}.

(** The keys of [log_stats] the schedule validator works on. *)
Record ScheduleStats : Type := {
  schedule_runtime_state : ScheduleState;
  cycles : list CycleRecord;
  global_errors : list GlobalError;
  schedule_slot_timing : gmap (string * Z) SlotStats;
  schedule_timing_mismatches : gmap (string * Z) TimingMismatch;
  slave_reliability : gmap (string * string) Reliability;
}.

Definition with_state (s : ScheduleStats) (st : ScheduleState) : ScheduleStats :=
  {| schedule_runtime_state := st; cycles := cycles s;
     global_errors := global_errors s;
     schedule_slot_timing := schedule_slot_timing s;
     schedule_timing_mismatches := schedule_timing_mismatches s;
     slave_reliability := slave_reliability s |}.

(** [_reset_state], line 786. *)
Definition _reset_state (st : ScheduleState) : ScheduleState :=
  {| active_schedules := []; current_index := 0; last_event_timestamp := None;
     cycle_start_timestamp := None; cycle_log := [];
     cycle_id := cycle_id st + 1; has_timing_errors := false; id_ := id_ st |}.

(** [_log_cycle_event], line 792. *)
Definition _log_cycle_event (current_ts : F) (event_type : string)
    (details : EventDetails) (st : ScheduleState) : ScheduleState :=
  {| active_schedules := active_schedules st; current_index := current_index st;
     last_event_timestamp := last_event_timestamp st;
     cycle_start_timestamp := cycle_start_timestamp st;
     cycle_log := cycle_log st ++
       [{| ev_ts := current_ts; ev_type := event_type; ev_details := details |}];
     cycle_id := cycle_id st; has_timing_errors := has_timing_errors st;
     id_ := id_ st |}.

(** [_finalize_cycle], line 794. *)
Definition _finalize_cycle (current_ts : F) (status : string)
    (s : ScheduleStats) : ScheduleStats :=
  let st := schedule_runtime_state s in
  if negb (opt_truthy (cycle_start_timestamp st)) then
    with_state s (_reset_state st)
  else
    let final_schedule_name :=
      match active_schedules st with
      | [name] => name
      | _ => "Ambiguous"%string
      end in
    let cycles' :=
      match cycle_log st with
      | [] => cycles s
      | _ :: _ =>
          cycles s ++
          [{| cr_id := id_ st; cr_schedule_name := final_schedule_name;
              cr_start_ts := cycle_start_timestamp st; cr_end_ts := current_ts;
              cr_status := status; cr_events := cycle_log st;
              cr_had_timing_errors := has_timing_errors st |}]
      end in
    {| schedule_runtime_state := _reset_state st; cycles := cycles';
       global_errors := global_errors s;
       schedule_slot_timing := schedule_slot_timing s;
       schedule_timing_mismatches := schedule_timing_mismatches s;
       slave_reliability := slave_reliability s |}.

Definition schedule_of (ldf_data : LDFData F) (sched_name : string)
    : list ScheduleEntry :=
  default [] (Dict.get (schedules ldf_data) sched_name).

(** [check_and_finalize_if_complete], line 807: the new statistics and
    the returned flag. *)
Definition check_and_finalize_if_complete (ldf_data : LDFData F) (current_ts : F)
    (s : ScheduleStats) : ScheduleStats * bool :=
  let st := schedule_runtime_state s in
  match active_schedules st with
  | [sched_name] =>
      if Z.of_nat (length (schedule_of ldf_data sched_name)) <=? current_index st
      then
        (_finalize_cycle current_ts "Completed"
           (with_state s (_log_cycle_event current_ts "Cycle Completed" NoDetails st)),
         true)
      else (s, false)
  | _ => (s, false)
  end.

(** The schedules whose first slot is the observed frame, line 818. *)
Definition candidate_schedules (ldf_data : LDFData F)
    (current_frame_name : string) : list string :=
  omap (fun '(n, s) =>
          match s with
          | e :: _ => if String.eqb (frame_name e) current_frame_name
                      then Some n else None
          | [] => None
          end) (schedules ldf_data).

(** The update of line 820 followed by the [Cycle Start] event. *)
Definition start_cycle (current_ts : F) (current_frame_name : string)
    (candidates : list string) (st : ScheduleState) : ScheduleState :=
  _log_cycle_event current_ts "Cycle Start" (TriggerFrame current_frame_name)
    {| active_schedules := Sorting.sorted candidates; current_index := 1;
       last_event_timestamp := Some current_ts;
       cycle_start_timestamp := Some current_ts;
       cycle_log := cycle_log st; cycle_id := cycle_id st;
       has_timing_errors := has_timing_errors st;
       id_ := Some (cycle_id st) |}.

Definition intrusion (current_ts : F) (current_frame_name : string)
    (s : ScheduleStats) : ScheduleStats :=
  {| schedule_runtime_state := schedule_runtime_state s; cycles := cycles s;
     global_errors := global_errors s ++
       [{| ge_ts := current_ts; ge_type := "Intrusion Frame";
           ge_frame_name := current_frame_name |}];
     schedule_slot_timing := schedule_slot_timing s;
     schedule_timing_mismatches := schedule_timing_mismatches s;
     slave_reliability := slave_reliability s |}.

(** Lines 817-829: the turn of the loop taken when no schedule is active. *)
Definition idle_turn (ldf_data : LDFData F) (current_ts : F)
    (current_frame_name : string) (s : ScheduleStats) : ScheduleStats :=
  match candidate_schedules ldf_data current_frame_name with
  | [] => intrusion current_ts current_frame_name s
  | candidates =>
      (check_and_finalize_if_complete ldf_data current_ts
         (with_state s (start_cycle current_ts current_frame_name candidates
                          (schedule_runtime_state s)))).1
  end.

(** [expected_frames_info], lines 832-839. *)
Definition expected_frames_info (ldf_data : LDFData F) (active : list string)
    (current_idx : Z) : list (string * list string) :=
  foldl (fun info sched_name =>
           if (0 <=? current_idx)
              && (current_idx <? Z.of_nat (length (schedule_of ldf_data sched_name)))
           then
             match schedule_of ldf_data sched_name !! Z.to_nat current_idx with
             | Some e =>
                 Dict.set info (frame_name e)
                   (default [] (Dict.get info (frame_name e)) ++ [sched_name])
             | None => info
             end
           else info) [] active.

End Schedule.
Arguments CycleEvent : clear implicits.
Arguments ScheduleState : clear implicits.
Arguments CycleRecord : clear implicits.
Arguments GlobalError : clear implicits.
Arguments SlotStats : clear implicits.
Arguments TimingMismatch : clear implicits.
Arguments ScheduleStats : clear implicits.

Section ScheduleValidator.
Context {F : Type} `{PyFloat F}.

(** [frame_def and frame_def.publisher and frame_def.publisher != master_node_name] *)
Definition slave_publisher (ldf_data : LDFData F) (name : string) : option string :=
  match Dict.get (frames ldf_data) name with
  | Some frame_def =>
      match lf_publisher frame_def with
      | Some p =>
          if negb (String.eqb p EmptyString)
             && negb (bool_decide (Some p = master (nodes ldf_data)))
          then Some p else None
      | None => None
      end
  | None => None
  end.

Definition new_reliability : Reliability := {| requests := 0; responses := 0 |}.

Definition add_request (ldf_data : LDFData F)
    (rel : gmap (string * string) Reliability) (name : string)
    : gmap (string * string) Reliability :=
  match slave_publisher ldf_data name with
  | Some p =>
      let r := default new_reliability (rel !! (p, name)) in
      <[(p, name) := {| requests := requests r + 1; responses := responses r |}]> rel
  | None => rel
  end.

Definition add_response (ldf_data : LDFData F)
    (rel : gmap (string * string) Reliability) (name : string)
    : gmap (string * string) Reliability :=
  match slave_publisher ldf_data name with
  | Some p =>
      let r := default new_reliability (rel !! (p, name)) in
      <[(p, name) := {| requests := requests r; responses := responses r + 1 |}]> rel
  | None => rel
  end.

(** The factories of lines 1397 and 1399. *)
Definition slot_timing_factory : SlotStats F :=
  {| sum_ms := f_of_int 0; sum_sq_ms := f_of_int 0; slot_count := 0;
     min_ms := f_inf; max_ms := f_neg_inf |}.

Definition timing_mismatch_factory : TimingMismatch F :=
  {| tm_count := 0; sum_observed_ms := f_of_int 0; min_observed_ms := f_inf;
     max_observed_ms := f_neg_inf; expected_ms := None; tm_frame_name := "";
     tm_publisher := Some ""%string; tm_first_ts := None; tm_last_ts := None |}.

(** One turn of [for sched_name in potential_matches], lines 858-885.
    The flag is [state['has_timing_errors']]. *)
Definition timing_one (ldf_data : LDFData F) (current_ts : F)
    (current_frame_name : string) (current_idx : Z)
    (tolerance_factor min_absolute_tolerance_s : F)
    (last_event : option F) (sched_name : string)
    (acc : gmap (string * Z) (SlotStats F)
           * gmap (string * Z) (TimingMismatch F) * bool)
    : result (gmap (string * Z) (SlotStats F)
              * gmap (string * Z) (TimingMismatch F) * bool) :=
  let '(slots, mismatches, errs) := acc in
  match schedule_of ldf_data sched_name !! Z.to_nat current_idx, last_event with
  | None, _ => Raise IndexError
  | _, None => Raise TypeError
  | Some e, Some last =>
      let expected_delay_ms := delay_ms e in
      let jitter_s := master_jitter_s (nodes ldf_data) in
      let observed_delay_s := f_sub current_ts last in
      let observed_delay_ms := f_mul observed_delay_s (f_of_int 1000) in
      let slot_key := (sched_name, current_idx) in
      let stats := default slot_timing_factory (slots !! slot_key) in
      let slots' :=
        <[slot_key :=
            {| sum_ms := f_add (sum_ms stats) observed_delay_ms;
               sum_sq_ms := f_add (sum_sq_ms stats)
                                  (f_mul observed_delay_ms observed_delay_ms);
               slot_count := slot_count stats + 1;
               min_ms := f_min (min_ms stats) observed_delay_ms;
               max_ms := f_max (max_ms stats) observed_delay_ms |}]> slots in
      let expected_s := f_div (f_of_int expected_delay_ms) (f_of_int 1000) in
      let tolerance_abs :=
        f_add (f_max (f_mul expected_s tolerance_factor) min_absolute_tolerance_s)
              jitter_s in
      if negb (f_leb (f_abs (f_sub observed_delay_s expected_s)) tolerance_abs) then
        let ms := default timing_mismatch_factory (mismatches !! slot_key) in
        let first := tm_first_ts ms in
        let publisher :=
          match Dict.get (frames ldf_data) current_frame_name with
          | Some frame_def => lf_publisher frame_def
          | None => Some "N/A"%string
          end in
        Ok (slots',
            <[slot_key :=
                {| tm_count := tm_count ms + 1;
                   sum_observed_ms := f_add (sum_observed_ms ms) observed_delay_ms;
                   min_observed_ms := f_min (min_observed_ms ms) observed_delay_ms;
                   max_observed_ms := f_max (max_observed_ms ms) observed_delay_ms;
                   expected_ms :=
                     match first with None => Some expected_delay_ms
                                 | Some _ => expected_ms ms end;
                   tm_frame_name :=
                     match first with None => current_frame_name
                                 | Some _ => tm_frame_name ms end;
                   tm_publisher :=
                     match first with None => publisher
                                 | Some _ => tm_publisher ms end;
                   tm_first_ts :=
                     match first with None => Some current_ts | Some t => Some t end;
                   tm_last_ts := Some current_ts |}]> mismatches,
            true)
      else Ok (slots', mismatches, errs)
  end.

Fixpoint timing_all (ldf_data : LDFData F) (current_ts : F)
    (current_frame_name : string) (current_idx : Z)
    (tolerance_factor min_absolute_tolerance_s : F)
    (last_event : option F) (potential_matches : list string)
    (acc : gmap (string * Z) (SlotStats F)
           * gmap (string * Z) (TimingMismatch F) * bool)
    : result (gmap (string * Z) (SlotStats F)
              * gmap (string * Z) (TimingMismatch F) * bool) :=
  match potential_matches with
  | [] => Ok acc
  | sched_name :: rest =>
      acc' <-! timing_one ldf_data current_ts current_frame_name current_idx
                 tolerance_factor min_absolute_tolerance_s last_event
                 sched_name acc ;;
      timing_all ldf_data current_ts current_frame_name current_idx
        tolerance_factor min_absolute_tolerance_s last_event rest acc'
  end.

(** How a turn of [while True] ends: [return] (or [break], which leads to
    the final [return]) or [continue]. *)
Inductive Turn : Type :=
| Return (s : ScheduleStats F)
| Continue (s : ScheduleStats F).

(** The abort of lines 893-895. *)
Definition sequence_mismatch (current_ts : F) (current_frame_name : string)
    (info : list (string * list string)) (s : ScheduleStats F) : ScheduleStats F :=
  _finalize_cycle current_ts "Aborted"
    (with_state s
       (_log_cycle_event current_ts "Sequence Mismatch"
          (Mismatch (Dict.keys info) current_frame_name)
          (schedule_runtime_state s))).

(** Lines 831-895: the turn of the loop taken while schedules are active. *)
Definition active_turn (ldf_data : LDFData F) (current_ts : F)
    (current_frame_name : string)
    (tolerance_factor min_absolute_tolerance_s : F)
    (s : ScheduleStats F) : result Turn :=
  let st := schedule_runtime_state s in
  let current_idx := current_index st in
  let info := expected_frames_info ldf_data (active_schedules st) current_idx in
  match info with
  | [] => Ok (Continue (_finalize_cycle current_ts "Aborted" s))
  | _ :: _ =>
      let rel := foldl (add_request ldf_data) (slave_reliability s) (Dict.keys info) in
      let s :=
        {| schedule_runtime_state := st; cycles := cycles s;
           global_errors := global_errors s;
           schedule_slot_timing := schedule_slot_timing s;
           schedule_timing_mismatches := schedule_timing_mismatches s;
           slave_reliability := rel |} in
      match Dict.get info current_frame_name with
      | Some potential_matches =>
          let rel := add_response ldf_data rel current_frame_name in
          timed <-! timing_all ldf_data current_ts current_frame_name current_idx
                      tolerance_factor min_absolute_tolerance_s
                      (last_event_timestamp st) potential_matches
                      (schedule_slot_timing s, schedule_timing_mismatches s,
                       has_timing_errors st) ;;
          let '(slots, mismatches, errs) := timed in
          let st' :=
            {| active_schedules := Sorting.sorted potential_matches;
               current_index := current_index st + 1;
               last_event_timestamp := Some current_ts;
               cycle_start_timestamp := cycle_start_timestamp st;
               cycle_log := cycle_log st; cycle_id := cycle_id st;
               has_timing_errors := errs; id_ := id_ st |} in
          Ok (Return
                (check_and_finalize_if_complete ldf_data current_ts
                   {| schedule_runtime_state := st'; cycles := cycles s;
                      global_errors := global_errors s;
                      schedule_slot_timing := slots;
                      schedule_timing_mismatches := mismatches;
                      slave_reliability := rel |}).1)
      | None =>
          Ok (Continue (sequence_mismatch current_ts current_frame_name info s))
      end
  end.

(** [while True], line 816, run for at most [fuel] turns; [None] when the
    turns are used up. *)
Fixpoint schedule_loop (fuel : nat) (ldf_data : LDFData F) (current_ts : F)
    (current_frame_name : string)
    (tolerance_factor min_absolute_tolerance_s : F)
    (s : ScheduleStats F) : option (result (ScheduleStats F)) :=
  match fuel with
  | O => None
  | S fuel' =>
      match active_schedules (schedule_runtime_state s) with
      | [] => Some (Ok (idle_turn ldf_data current_ts current_frame_name s))
      | _ :: _ =>
          match active_turn ldf_data current_ts current_frame_name
                  tolerance_factor min_absolute_tolerance_s s with
          | Raise e => Some (Raise e)
          | Ok (Return s') => Some (Ok s')
          | Ok (Continue s') =>
              schedule_loop fuel' ldf_data current_ts current_frame_name
                tolerance_factor min_absolute_tolerance_s s'
          end
      end
  end.

(** [validate_schedule_order_and_presence], line 748. *)
Definition validate_schedule_order_and_presence (fuel : nat)
    (entry : LogEntry F) (ldf_data : LDFData F)
    (ldf_id_to_frame_map : gmap Z (LDFFrame F)) (s : ScheduleStats F)
    (tolerance_factor min_absolute_tolerance_s : F)
    : option (result (ScheduleStats F)) :=
  if negb (bool_decide (type entry ∈ ["Rx"; "TransmErr"; "RcvError"]%string))
  then Some (Ok s)
  else
    match ldf_id_to_frame_map !! frame_id_int entry with
    | None => Some (Ok s)
    | Some current_frame_obj =>
        schedule_loop fuel ldf_data (timestamp entry) (lf_name current_frame_obj)
          tolerance_factor min_absolute_tolerance_s s
    end.

End ScheduleValidator.
Arguments Turn : clear implicits.

(** ** CAN databases *)

Section Dbc.
Context {F : Type}.

(** The lines of a DBC file that [parse_dbc_single_file], line 1697,
    recognises, with the groups its patterns capture.  An [SG_] line
    carries the signal its fields convert to ([None] when a conversion
    fails).  Message attributes ([BA_ ... BO_]) and value tables ([VAL_])
    only fill [attributes] and [logical_map] and are left out. *)
Inductive DbcLine : Type :=
| BA_DEF_DEF (attr_name attr_value_str : string)
| BA_global (attr_name attr_value_str : string)
| BO (msg_id_str msg_name dlc_str node_name_sender : string)
| SG (signal : option (DBCSignal F))
| OtherLine.

(** [global_attributes_this_file], restricted to the keys the file parser
    sets. *)
Record FileAttributes : Type := {
  Baudrate : option Z;
  _Baudrate_source : option string;
}.

Definition EXTENDED_ID_FLAG_BIT31 : Z := 0x80000000.
Definition STANDARD_ID_MAX : Z := 0x7FF.
Definition EXTENDED_ID_MASK_29BIT : Z := 0x1FFFFFFF.

Record FileState : Type := {
  messages : list (Z * DBCMessage F);
  global_attributes_this_file : FileAttributes;
  current_msg_obj : option Z;
}.

Definition add_signal (sig : DBCSignal F) (m : DBCMessage F) : DBCMessage F :=
  {| dm_id := dm_id m; dm_name := dm_name m; dm_dlc := dm_dlc m;
     dm_node_name := dm_node_name m; dm_signals := dm_signals m ++ [sig];
     dm_attributes := dm_attributes m |}.

(** One turn of the first loop over the lines, lines 1724-1870.
    [current_msg_obj] is the key under which the current message object
    is stored in [messages]. *)
Definition dbc_line (st : FileState) (line : DbcLine) : FileState :=
  match line with
  | BA_DEF_DEF attr_name attr_value_str =>
      if String.eqb attr_name "Baudrate" then
        let attrs := global_attributes_this_file st in
        if bool_decide (Baudrate attrs = None)
           || bool_decide (_Baudrate_source attrs = Some "default"%string)
        then
          match Str.int_of_string 10 attr_value_str with
          | Some baud_val =>
              {| messages := messages st;
                 global_attributes_this_file :=
                   {| Baudrate := Some baud_val;
                      _Baudrate_source := Some "default"%string |};
                 current_msg_obj := current_msg_obj st |}
          | None => st
          end
        else st
      else st
  | BA_global attr_name attr_value_str =>
      if String.eqb attr_name "Baudrate" then
        match Str.int_of_string 10 attr_value_str with
        | Some baud_val =>
            {| messages := messages st;
               global_attributes_this_file :=
                 {| Baudrate := Some baud_val;
                    _Baudrate_source := Some "explicit"%string |};
               current_msg_obj := current_msg_obj st |}
        | None => st
        end
      else st
  | BO msg_id_str msg_name dlc_str node_name_sender =>
      match Str.int_of_string 10 msg_id_str, Str.int_of_string 10 dlc_str with
      | Some dbc_raw_id, Some parsed_dlc =>
          let is_extended_frame_dbc :=
            negb (Z.land dbc_raw_id EXTENDED_ID_FLAG_BIT31 =? 0)
            || (STANDARD_ID_MAX <? dbc_raw_id) in
          let actual_can_id :=
            if is_extended_frame_dbc
            then Z.land dbc_raw_id EXTENDED_ID_MASK_29BIT else dbc_raw_id in
          let new_message :=
            {| dm_id := actual_can_id; dm_name := msg_name;
               dm_dlc := Some parsed_dlc;
               dm_node_name := Some node_name_sender; dm_signals := [];
               dm_attributes :=
                 [("_is_extended_format_dbc_"%string, ABool is_extended_frame_dbc);
                  ("_dbc_raw_id_"%string, AInt dbc_raw_id)] |} in
          {| messages := Dict.set (messages st) actual_can_id new_message;
             global_attributes_this_file := global_attributes_this_file st;
             current_msg_obj := Some actual_can_id |}
      | _, _ =>
          {| messages := messages st;
             global_attributes_this_file := global_attributes_this_file st;
             current_msg_obj := None |}
      end
  | SG (Some new_signal) =>
      match current_msg_obj st with
      | Some key =>
          match Dict.get (messages st) key with
          | Some m =>
              {| messages := Dict.set (messages st) key (add_signal new_signal m);
                 global_attributes_this_file := global_attributes_this_file st;
                 current_msg_obj := current_msg_obj st |}
          | None => st
          end
      | None => st
      end
  | SG None => st
  | OtherLine => st
  end.

(** A file that can be read parses to its messages and attributes; one
    that cannot raises. *)
Definition parse_dbc_single_file (file : option (list DbcLine))
    : result (list (Z * DBCMessage F) * FileAttributes) :=
  match file with
  | None => Raise ValueError
  | Some lines =>
      let st := foldl dbc_line
                  {| messages := [];
                     global_attributes_this_file :=
                       {| Baudrate := None; _Baudrate_source := None |};
                     current_msg_obj := None |} lines in
      Ok (messages st, global_attributes_this_file st)
  end.

(** [AggregatedMessageData], line 136. *)
Record AggregatedMessageData : Type := {
  agg_name : string;
  agg_id : Z;
  signals_dict : list (string * DBCSignal F);
  agg_dlc : option Z;
  agg_node_name : option string;
  agg_attributes : list (string * AttrVal);
}.

Record ChannelState : Type := {
  channel_messages_aggregated : list (Z * AggregatedMessageData);
  (** [global_attributes_aggregated["Baudrate"]] *)
  aggregated_baudrate : option Z;
  first_baudrate_found : option Z;
}.

Definition merge_signals (d : list (string * DBCSignal F))
    (sigs : list (DBCSignal F)) : list (string * DBCSignal F) :=
  foldl (fun acc s => Dict.set acc (ds_name s) s) d sigs.

(** [d.update(other)] *)
Definition dict_update {V} (d other : list (string * V)) : list (string * V) :=
  foldl (fun acc kv => Dict.set acc kv.1 kv.2) d other.

(** The body of [for msg_id, msg_obj in current_file_messages.items()],
    lines 1997-2030: the state it leaves, and [true] when it raised the
    [ValueError] of line 2022. *)
Definition aggregate_message (file_baudrate : option Z)
    (st : ChannelState) (item : Z * DBCMessage F) : ChannelState * bool :=
  let '(msg_id, msg_obj) := item in
  let agg := channel_messages_aggregated st in
  let agg :=
    match Dict.get agg msg_id with
    | None =>
        Dict.set agg msg_id
          {| agg_name := dm_name msg_obj; agg_id := dm_id msg_obj;
             signals_dict := merge_signals [] (dm_signals msg_obj);
             agg_dlc := dm_dlc msg_obj; agg_node_name := dm_node_name msg_obj;
             agg_attributes := dm_attributes msg_obj |}
    | Some existing_aggregation =>
        Dict.set agg msg_id
          {| agg_name := agg_name existing_aggregation;
             agg_id := agg_id existing_aggregation;
             signals_dict :=
               merge_signals (signals_dict existing_aggregation) (dm_signals msg_obj);
             agg_dlc :=
               match agg_dlc existing_aggregation with
               | None => dm_dlc msg_obj
               | d => d
               end;
             agg_node_name :=
               match agg_node_name existing_aggregation with
               | None => dm_node_name msg_obj
               | n => n
               end;
             agg_attributes :=
               dict_update (agg_attributes existing_aggregation)
                           (dm_attributes msg_obj) |}
    end in
  match file_baudrate with
  | Some baud =>
      match first_baudrate_found st with
      | None =>
          ({| channel_messages_aggregated := agg;
              aggregated_baudrate := Some baud;
              first_baudrate_found := Some baud |}, false)
      | Some first =>
          ({| channel_messages_aggregated := agg;
              aggregated_baudrate := aggregated_baudrate st;
              first_baudrate_found := first_baudrate_found st |},
           negb (first =? baud))
      end
  | None =>
      let agg :=
        match Dict.get agg msg_id with
        | Some existing_aggregation =>
            Dict.set agg msg_id
              {| agg_name := dm_name msg_obj;
                 agg_id := agg_id existing_aggregation;
                 signals_dict :=
                   merge_signals (signals_dict existing_aggregation)
                                 (dm_signals msg_obj);
                 agg_dlc := dm_dlc msg_obj;
                 agg_node_name := dm_node_name msg_obj;
                 agg_attributes := agg_attributes existing_aggregation |}
        | None => agg
        end in
      ({| channel_messages_aggregated := agg;
          aggregated_baudrate := aggregated_baudrate st;
          first_baudrate_found := first_baudrate_found st |}, false)
  end.

(** The message loop of one file, stopped by the first raise. *)
Fixpoint aggregate_messages (file_baudrate : option Z) (st : ChannelState)
    (items : list (Z * DBCMessage F)) : ChannelState * bool :=
  match items with
  | [] => (st, false)
  | item :: rest =>
      let '(st', raised) := aggregate_message file_baudrate st item in
      if raised then (st', true)
      else aggregate_messages file_baudrate st' rest
  end.

(** The [try] block of lines 1994-2030 for one path. *)
Definition aggregate_file (st : ChannelState) (file : option (list DbcLine))
    : ChannelState * bool :=
  match parse_dbc_single_file file with
  | Raise _ => (st, true)
  | Ok (current_file_messages, current_file_attributes) =>
      aggregate_messages (Baudrate current_file_attributes) st
        current_file_messages
  end.

(** [parse_dbcs_for_channel], line 1989.  The handler of line 2031,
    [except Exception: ... continue], takes every raise of the [try]
    block, so the loop always goes on with the next path. *)
Definition parse_dbcs_for_channel (dbc_paths : list (option (list DbcLine)))
    : result (list (Z * DBCMessage F) * option Z) :=
  let st :=
    foldl (fun st file => (aggregate_file st file).1)
          {| channel_messages_aggregated := []; aggregated_baudrate := None;
             first_baudrate_found := None |} dbc_paths in
  Ok (map (fun '(msg_id, agg_data) =>
             (msg_id,
              {| dm_id := agg_id agg_data; dm_name := agg_name agg_data;
                 dm_dlc := agg_dlc agg_data;
                 dm_node_name := agg_node_name agg_data;
                 dm_signals := Dict.values (signals_dict agg_data);
                 dm_attributes := agg_attributes agg_data |}))
          (channel_messages_aggregated st),
      aggregated_baudrate st).

End Dbc.
Arguments DbcLine : clear implicits.
Arguments FileState : clear implicits.
Arguments AggregatedMessageData : clear implicits.
Arguments ChannelState : clear implicits.

(** ** LDF parser *)

Section Ldf.
Context {F : Type} `{PyFloat F}.

(** What the patterns of [parse_ldf], line 246, capture in an LDF text:
    the section blocks with the groups of every definition they hold,
    before any conversion to numbers. *)

(** [MASTER_NODE_RE] and [SLAVE_NODES_RE] inside the [Nodes] block. *)
Record NodesBlock : Type := {
  master_match : option (string * string * option string);
  slaves_match : option (list string);
}.

(** The resolved encoding of a signal: [signal_encoding_details] looked up
    through [signal_to_encoding_map]. *)
Record EncodingDetails : Type := {
  enc_factor : option F;
  enc_offset : option F;
  enc_unit : option string;
  enc_logical_map : option (gmap Z string);
  enc_encoding_type : option string;
}.

(** A match of [FRAME_DEF_RE]; [fd_sigs] are the lines of its body that
    [FRAME_SIG_RE] matches. *)
Record FrameDef : Type := {
  fd_fname : string;
  fd_fid_str : string;
  fd_publisher : string;
  fd_dlc_str : string;
  fd_sigs : list (string * string);
}.

Record LdfText : Type := {
  (** [NODE_BLOCK_RE.search] *)
  nodes_match : option NodesBlock;
  (** The [Signals] section as lines 307-337 read it. *)
  signals_base : list (string * LDFSignal F);
  encoding_of : string -> option EncodingDetails;
  (** [FRAME_DEF_RE.findall] on the [Frames] block, empty without one. *)
  frame_defs : list FrameDef;
  (** The lines [name: a, b, ...;] of [Sporadic_frames]. *)
  sporadic_lines : list (string * list string);
  (** The lines of [Event_triggered_frames]: name and comma separated tokens. *)
  event_triggered_lines : list (string * list string);
  (** [DIAG_FRAME_DEF_RE.findall]: name and identifier. *)
  diag_defs : list (string * string);
  (** [SCHEDULE_TABLE_DEF_RE.findall], each body through [SCHEDULE_ENTRY_RE]. *)
  schedule_defs : list (string * list (string * string));
  (** The nodes of [Node_attributes] that declare [response_error = name;]. *)
  response_errors : list (string * string);
}.

Definition new_frame (name : string) (fid : option Z) (publisher : option string)
    (dlc : option Z) (sigs : list (LDFSignal F)) (frame_type : string)
    (associated : list string) : LDFFrame F :=
  {| lf_name := name; lf_id := fid; lf_publisher := publisher; lf_dlc := dlc;
     lf_signals := sigs; lf_frame_type := frame_type;
     lf_associated_frames := associated |}.

(** Lines 413-439: the signals of one frame. *)
Definition frame_signals (src : LdfText) (sigs : list (string * string))
    : list (LDFSignal F) :=
  omap (fun '(sig_name, start_bit_str) =>
          base_sig_info ← Dict.get (signals_base src) sig_name;
          start_bit ← Str.int_of_string 10 start_bit_str;
          let enc := encoding_of src sig_name in
          Some {| ls_name := sig_name; ls_length := ls_length base_sig_info;
                  ls_publisher := ls_publisher base_sig_info;
                  ls_subscriber := ls_subscriber base_sig_info;
                  ls_start_bit := Some start_bit;
                  ls_unit := enc ≫= enc_unit;
                  ls_factor := default (f_of_int 1) (enc ≫= enc_factor);
                  ls_offset := default (f_of_int 0) (enc ≫= enc_offset);
                  ls_logical_map := default ∅ (enc ≫= enc_logical_map);
                  ls_encoding_type :=
                    default "physical"%string (enc ≫= enc_encoding_type);
                  ls_min_value := None; ls_max_value := None |}) sigs.

(** Lines 406-440: one match of [FRAME_DEF_RE]. *)
Definition add_frame_def (src : LdfText) (frames : list (string * LDFFrame F))
    (d : FrameDef) : list (string * LDFFrame F) :=
  match Str.int_of_string_auto (fd_fid_str d), Str.int_of_string 10 (fd_dlc_str d) with
  | Some frame_id, Some frame_dlc =>
      Dict.set frames (fd_fname d)
        (new_frame (fd_fname d) (Some frame_id) (Some (fd_publisher d))
           (Some frame_dlc) (frame_signals src (fd_sigs d)) "standard" [])
  | _, _ => frames
  end.

Definition known_names (frames : list (string * LDFFrame F))
    (names : list string) : list string :=
  filter (fun n => n <> EmptyString /\ Dict.mem frames n = true) names.

(** Lines 445-465. *)
Definition add_sporadic (frames : list (string * LDFFrame F))
    (l : string * list string) : list (string * LDFFrame F) :=
  let '(sporadic_frame_name, names) := l in
  match known_names frames names with
  | [] => frames
  | associated_frame_names =>
      Dict.set frames sporadic_frame_name
        (new_frame sporadic_frame_name None None None [] "sporadic"
           associated_frame_names)
  end.

(** Lines 470-500. *)
Definition add_event_triggered (frames : list (string * LDFFrame F))
    (l : string * list string) : list (string * LDFFrame F) :=
  let '(event_frame_name, tokens) := l in
  let '(frame_id_et, associated_frame_names_et) :=
    match tokens with
    | [] => (None, [])
    | t :: rest =>
        match Str.int_of_string_auto t with
        | Some i => (Some i, known_names frames rest)
        | None => (None, known_names frames tokens)
        end
    end in
  match associated_frame_names_et with
  | [] => frames
  | _ =>
      Dict.set frames event_frame_name
        (new_frame event_frame_name frame_id_et None None [] "event_triggered"
           associated_frame_names_et)
  end.

(** Lines 507-524. *)
Definition add_diagnostic (master_name : option string)
    (frames : list (string * LDFFrame F)) (d : string * string)
    : list (string * LDFFrame F) :=
  let '(frame_name, frame_id_str) := d in
  match Str.int_of_string_auto frame_id_str with
  | Some frame_id =>
      Dict.set frames frame_name
        (new_frame frame_name (Some frame_id)
           (if frame_id =? 0x3C then master_name else None)
           (Some 8) [] "diagnostic" [])
  | None => frames
  end.

(** Lines 533-545: the entries of one table, [None] once
    [valid_schedule] is false. *)
Fixpoint schedule_entries (frames : list (string * LDFFrame F))
    (entries : list (string * string)) : option (list ScheduleEntry) :=
  match entries with
  | [] => Some []
  | (name, delay_ms_str) :: rest =>
      if Dict.mem frames name then
        match Str.int_of_string 10 delay_ms_str with
        | Some d =>
            tail ← schedule_entries frames rest;
            Some ({| frame_name := name; delay_ms := d |} :: tail)
        | None => None
        end
      else None
  end.

(** Lines 529-547. *)
Definition add_schedule (frames : list (string * LDFFrame F))
    (schedules : list (string * list ScheduleEntry))
    (d : string * list (string * string)) : list (string * list ScheduleEntry) :=
  let '(sched_name, entries) := d in
  match schedule_entries frames entries with
  | Some (e :: es) => Dict.set schedules sched_name (e :: es)
  | _ => schedules
  end.

Definition parse_frames (src : LdfText) (master_name : option string)
    : list (string * LDFFrame F) :=
  let frames := foldl (add_frame_def src) [] (frame_defs src) in
  let frames := foldl add_sporadic frames (sporadic_lines src) in
  let frames := foldl add_event_triggered frames (event_triggered_lines src) in
  foldl (add_diagnostic master_name) frames (diag_defs src).

(** [parse_ldf], line 246. *)
Definition parse_ldf (src : LdfText) : result (LDFData F) :=
  match nodes_match src with
  | None => Raise ValueError
  | Some nb =>
      let master_name := (fun m => m.1.1) <$> master_match nb in
      let nodes :=
        {| master := master_name;
           master_timebase_s :=
             '(_, timebase_ms_str, _) ← master_match nb;
             t ← f_of_string timebase_ms_str;
             Some (f_div t (f_of_int 1000));
           master_jitter_s :=
             default (f_of_int 0)
               ('(_, _, jitter) ← master_match nb;
                jitter_ms_str ← jitter;
                t ← f_of_string jitter_ms_str;
                Some (f_div t (f_of_int 1000)));
           slaves := default [] (slaves_match nb);
           slaves_with_error_signal :=
             foldl (fun acc '(node_name, error_signal_name) =>
                      if bool_decide (node_name ∈ default [] (slaves_match nb))
                      then Dict.set acc node_name error_signal_name else acc)
                   [] (response_errors src) |} in
      let frames := parse_frames src master_name in
      let schedules := foldl (add_schedule frames) [] (schedule_defs src) in
      match frames with
      | [] => Raise ValueError
      | _ => Ok {| nodes := nodes; frames := frames; schedules := schedules |}
      end
  end.

End Ldf.
Arguments NodesBlock : clear implicits.
Arguments EncodingDetails : clear implicits.
Arguments LdfText : clear implicits.

(** ** The whole run *)

Section Run.
Context {F : Type} `{PyFloat F}.

(** [{f.id: f for f in ldf_data.frames.values() if f.id is not None}] *)
Definition ldf_id_to_frame_of (ldf_data : LDFData F) : gmap Z (LDFFrame F) :=
  foldl (fun acc kv =>
           match lf_id kv.2 with
           | Some i => <[i := kv.2]> acc
           | None => acc
           end) ∅ (frames ldf_data).

(** The latency average of [_finalize_statistics], lines 2560-2565. *)
Definition finalize_latency (res : GatewayResult F) : GatewayResult F :=
  let l := latency_stats res in
  {| comparisons := comparisons res; matches_ := matches_ res;
     mismatches_value := mismatches_value res;
     mismatches_type := mismatches_type res;
     mismatches_timing := mismatches_timing res;
     mismatch_examples := mismatch_examples res;
     mapping_info := mapping_info res;
     latency_stats :=
       {| lat_sum := lat_sum l; lat_min := lat_min l; lat_max := lat_max l;
          lat_count := lat_count l;
          lat_average :=
            if 0 <? lat_count l
            then Some (f_div (lat_sum l) (f_of_int (lat_count l))) else None |} |}.

Definition initial_run_state : RunState F :=
  {| log_stats := initialize_log_stats;
     gateway_source_events := ∅; gateway_target_events := ∅ |}.

(** [process_log_file], line 2566, on the keys of [LogStats]. *)
Definition process_log_file (lines : list Line) (ldf_data : LDFData F)
    (can_dbcs : list (string * list (Z * DBCMessage F)))
    (gateway_lookup : GatewayLookup F) (config : Config F)
    : result (LogStats F) :=
  st <-! process_entries config (ldf_id_to_frame_of ldf_data)
           (Dict.keys can_dbcs) gateway_lookup (parse_log lines)
           initial_run_state ;;
  let s := log_stats st in
  let results :=
    if enable_gateway_validation config then
      _post_process_gateway_correlation (gateway_results s)
        (gateway_source_events st) (gateway_target_events st)
        (gateway_tolerance config) ldf_data can_dbcs
    else gateway_results s in
  Ok {| processed := processed s; skipped := skipped s;
        start_time := start_time s; end_time := end_time s;
        lin_entries := lin_entries s; can_entries := can_entries s;
        network_active := network_active s;
        checksum_errors := checksum_errors s;
        parity_errors := parity_errors s;
        gateway_results := finalize_latency <$> results |}.

End Run.

(** ** Predicates of the statements *)

Section Predicates.
Context {F : Type}.

(** The counters of a gateway result add up. *)
Definition balanced (res : GatewayResult F) : Prop :=
  comparisons res
  = matches_ res + mismatches_value res + mismatches_type res
    + mismatches_timing res.

Definition all_balanced (results : gmap Z (GatewayResult F)) : Prop :=
  forall idx res, results !! idx = Some res -> balanced res.

(** Every table entry names a frame of the frames map. *)
Definition references_frames (frames : list (string * LDFFrame F))
    (schedules : list (string * list ScheduleEntry)) : Prop :=
  forall name entries e,
    (name, entries) ∈ schedules -> e ∈ entries ->
    Dict.mem frames (frame_name e) = true.

End Predicates.

(** The order of [sorted] on strings. *)
Definition str_le (x y : string) : Prop := String.leb x y = true.

Section GrouperPredicates.
Variable content_hash : list ScheduleEntry -> string.

(** What the grouping loop maintains: a grouped name points at the
    representative of its hash, and the representatives are the keys of
    the grouping dictionary, each the representative of its own hash. *)
Definition group_inv (schedules : list (string * list ScheduleEntry))
    (st : GroupState) : Prop :=
  (forall n r,
      original_name_to_representative_name_map st !! n = Some r ->
      hash_to_representative_name st !! content_hash (body_of schedules n) = Some r)
  /\ (forall h r,
         hash_to_representative_name st !! h = Some r ->
         content_hash (body_of schedules r) = h /\ r ∈ representatives st)
  /\ (forall r,
         r ∈ representatives st ->
         hash_to_representative_name st !! content_hash (body_of schedules r) = Some r).

(** The hash tells the bodies of a schedule dictionary apart. *)
Definition collision_free (schedules : list (string * list ScheduleEntry)) : Prop :=
  forall x y ex ey,
    Dict.get schedules x = Some ex -> Dict.get schedules y = Some ey ->
    content_hash ex = content_hash ey -> ex = ey.

End GrouperPredicates.

(** ** Concrete inputs *)

(** The record of the log line
    [0.010 Li <id> Rx 2 05 FA checksum=00 CSM=Enhanced]. *)
Definition enhanced_record (id_str : string) (id : Z) : LogEntry Q :=
  {| timestamp := Qmake 1 100; channel := "LIN"; frame_id := id_str;
     frame_id_int := id; type := "Rx"; data := [5; 0xFA];
     raw_line := "0.010 Li " ++ id_str ++ " Rx 2 05 FA checksum=00 CSM=Enhanced";
     declared_checksum := Some 0; csm := Some "Enhanced"%string;
     physical_metadata := None; event_channel := None;
     full_time_tbit := None; header_time_tbit := None |}.

Definition no_buckets : gmap (Z * Z * Z) (Bucket Q) := ∅.

Definition no_frames : gmap Z (LDFFrame Q) := ∅.

Definition lin_02 : LogEntry Q := enhanced_record "02" 2.

Module Sample.

Definition groups (l : list (string * string)) : groupdict := list_to_map l.

Definition lin_line (text : string) (l : list (string * string)) : Line :=
  {| raw_line_stripped := text;
     matches := {| m_spike := None; m_transerr := None; m_rcverr := None;
                   m_lin := Some (groups l); m_event := None;
                   m_canfd := None; m_can := None |} |}.

Definition can_line (text : string) (l : list (string * string)) : Line :=
  {| raw_line_stripped := text;
     matches := {| m_spike := None; m_transerr := None; m_rcverr := None;
                   m_lin := None; m_event := None;
                   m_canfd := None; m_can := Some (groups l) |} |}.

(** A header line of a log, which no pattern matches. *)
Definition header_line : Line :=
  {| raw_line_stripped := "// version 9.0.0"; matches := no_match |}.

(** [0.000 Li 01 Rx] *)
Definition first_frame_line : Line :=
  lin_line "0.000 Li 01 Rx"
    [("ts", "0.000"); ("id", "01"); ("type", "Rx"); ("data", "")]%string.

(** [0.010 Li 02 Rx checksum=00]: a checksum, no data bytes, no CSM. *)
Definition checksum_only_line : Line :=
  lin_line "0.010 Li 02 Rx checksum=00"
    [("ts", "0.010"); ("id", "02"); ("type", "Rx"); ("data", "");
     ("checksum", "00")]%string.

(** [0.010 1 100 Rx d 1 05]: a CAN frame of one byte. *)
Definition short_can_line : Line :=
  can_line "0.010 1 100 Rx d 1 05"
    [("ts", "0.010"); ("channel", "1"); ("id", "100"); ("type", "Rx");
     ("dl", "1"); ("data", " 05")]%string.

Definition sig_A : LDFSignal Q :=
  {| ls_name := "A"; ls_length := 8; ls_publisher := "S"; ls_subscriber := "M";
     ls_start_bit := Some 0; ls_unit := None; ls_factor := 1%Q; ls_offset := 0%Q;
     ls_logical_map := ∅; ls_encoding_type := "physical";
     ls_min_value := None; ls_max_value := None |}.

Definition frame_F1 : LDFFrame Q :=
  {| lf_name := "F1"; lf_id := Some 1; lf_publisher := Some "M"%string;
     lf_dlc := Some 1; lf_signals := []; lf_frame_type := "standard";
     lf_associated_frames := [] |}.

Definition frame_F2 : LDFFrame Q :=
  {| lf_name := "F2"; lf_id := Some 2; lf_publisher := Some "S"%string;
     lf_dlc := Some 2; lf_signals := [sig_A]; lf_frame_type := "standard";
     lf_associated_frames := [] |}.

Definition ldf : LDFData Q :=
  {| nodes := {| master := Some "M"%string; master_timebase_s := Some (Qmake 1 100);
                 master_jitter_s := 0%Q; slaves := ["S"%string];
                 slaves_with_error_signal := [] |};
     frames := [("F1"%string, frame_F1); ("F2"%string, frame_F2)];
     schedules :=
       [("Main"%string,
         [{| frame_name := "F1"; delay_ms := 10 |};
          {| frame_name := "F2"; delay_ms := 10 |}])] |}.

(** [SG_ B : 15|8@0+ (1,0) [0|255] "" ECU], Motorola byte order. *)
Definition sig_B : DBCSignal Q :=
  {| ds_name := "B"; ds_start_bit := Some 15; ds_length := Some 8;
     ds_factor := 1%Q; ds_offset := 0%Q; ds_unit := Some ""%string;
     ds_is_big_endian := true; ds_is_signed := false; ds_logical_map := ∅;
     ds_is_multiplexer_switch := false; ds_multiplexer_value := None |}.

Definition msg_B : DBCMessage Q :=
  {| dm_id := 0x100; dm_name := "MsgB"; dm_dlc := Some 2;
     dm_node_name := Some "ECU"%string; dm_signals := [sig_B];
     dm_attributes := [] |}.

Definition can_dbcs : list (string * list (Z * DBCMessage Q)) :=
  [("CAN1"%string, [(0x100, msg_B)])].

Definition mapping_A_to_B : Mapping Q :=
  {| map_index := 0; source_network := "LIN"; source_message := "F2";
     source_signal := "A"; target_network := "CAN1"; target_message := "MsgB";
     target_signal := "B"; source_signal_obj := Some (LinSig sig_A);
     target_signal_obj := Some (CanSig sig_B) |}.

Definition gateway_lookup : GatewayLookup Q :=
  {| lookup_source := {[ ("LIN"%string, 2) := [mapping_A_to_B] ]};
     lookup_target := {[ ("CAN1"%string, 0x100) := [mapping_A_to_B] ]} |}.

Definition no_gateway : GatewayLookup Q :=
  {| lookup_source := ∅; lookup_target := ∅ |}.

Definition config (gateway : bool) : Config Q :=
  {| enable_checksum_validation := true; enable_gateway_validation := gateway;
     gateway_tolerance := Qmake 22 1000 |}.

End Sample.

Module GatewaySample.

(** [0.000 Li 02 Rx 2 02 00] *)
Definition source_line : Line :=
  Sample.lin_line "0.000 Li 02 Rx 2 02 00"
    [("ts", "0.000"); ("id", "02"); ("type", "Rx"); ("dl", "2");
     ("data", " 02 00")]%string.

(** [0.010 1 100 Rx d 2 00 02] *)
Definition target_line : Line :=
  Sample.can_line "0.010 1 100 Rx d 2 00 02"
    [("ts", "0.010"); ("channel", "1"); ("id", "100"); ("type", "Rx");
     ("dl", "2"); ("data", " 00 02")]%string.

Definition run : result (LogStats Q) :=
  process_log_file [source_line; target_line] Sample.ldf Sample.can_dbcs
    Sample.gateway_lookup (Sample.config true).

End GatewaySample.

Module GroupSample.

(** A stand-in for the hash: the entries written out. *)
Definition written (entries : list ScheduleEntry) : string :=
  String.concat ";" (map (fun e => String.append (frame_name e)
                          (String.append "@" (pretty (delay_ms e)))) entries).

Definition two_slots : list ScheduleEntry :=
  [{| frame_name := "F1"; delay_ms := 10 |}; {| frame_name := "F2"; delay_ms := 10 |}].

Definition tables : list (string * list ScheduleEntry) :=
  [("Normal"%string, two_slots); ("Backup"%string, two_slots);
   ("Slow"%string, [{| frame_name := "F1"; delay_ms := 20 |}])].

End GroupSample.

Module CursorSample.

(** [schedule_runtime_state] and its companions as [initialize_log_stats]
    makes them. *)
Definition initial : ScheduleStats Q :=
  {| schedule_runtime_state :=
       {| active_schedules := []; current_index := 0;
          last_event_timestamp := None; cycle_start_timestamp := None;
          cycle_log := []; cycle_id := 0; has_timing_errors := false;
          id_ := None |};
     cycles := []; global_errors := []; schedule_slot_timing := ∅;
     schedule_timing_mismatches := ∅; slave_reliability := ∅ |}.

(** The cursor after [F1] at 1.000 s: table [Main] is active at index 1. *)
Definition after_first : ScheduleStats Q :=
  idle_turn Sample.ldf 1%Q "F1" initial.

(** [1.010 Li 01 Rx]: frame [F1] again, where [F2] is expected. *)
Definition repeated_F1 : LogEntry Q :=
  {| timestamp := Qmake 101 100; channel := "LIN"; frame_id := "01";
     frame_id_int := 1; type := "Rx"; data := [];
     raw_line := "1.010 Li 01 Rx"; declared_checksum := None; csm := None;
     physical_metadata := None; event_channel := None;
     full_time_tbit := None; header_time_tbit := None |}.

End CursorSample.

Module DbcSample.

(** [BA_ "Baudrate" 500000;] and [BO_ 256 MsgA: 8 ECU1] *)
Definition file_a : option (list (DbcLine Q)) :=
  Some [BA_global "Baudrate" "500000"; BO "256" "MsgA" "8" "ECU1"].

(** [BA_ "Baudrate" 250000;] and [BO_ 512 MsgB: 8 ECU2] *)
Definition file_b : option (list (DbcLine Q)) :=
  Some [BA_global "Baudrate" "250000"; BO "512" "MsgB" "8" "ECU2"].

Definition message (id : Z) (name sender : string) : DBCMessage Q :=
  {| dm_id := id; dm_name := name; dm_dlc := Some 8;
     dm_node_name := Some sender; dm_signals := [];
     dm_attributes := [("_is_extended_format_dbc_"%string, ABool false);
                       ("_dbc_raw_id_"%string, AInt id)] |}.

Definition after_a : ChannelState Q :=
  (aggregate_file
     {| channel_messages_aggregated := []; aggregated_baudrate := None;
        first_baudrate_found := None |} file_a).1.

End DbcSample.

Module LdfSample.

(** [Nodes { Master: M, 10 ms; Slaves: S; }  Signals { }
     Frames { Big: 100, M, 9 { } }
     Schedule_tables { T { Big delay 10 ms; } }] *)
Definition out_of_range : LdfText Q :=
  {| nodes_match :=
       Some {| master_match := Some ("M", "10", None)%string;
               slaves_match := Some ["S"%string] |};
     signals_base := [];
     encoding_of := fun _ => None;
     frame_defs :=
       [{| fd_fname := "Big"; fd_fid_str := "100"; fd_publisher := "M";
           fd_dlc_str := "9"; fd_sigs := [] |}];
     sporadic_lines := [];
     event_triggered_lines := [];
     diag_defs := [];
     schedule_defs := [("T", [("Big", "10")])]%string;
     response_errors := [] |}.

Definition big_frame : LDFFrame Q :=
  {| lf_name := "Big"; lf_id := Some 100; lf_publisher := Some "M"%string;
     lf_dlc := Some 9; lf_signals := []; lf_frame_type := "standard";
     lf_associated_frames := [] |}.

End LdfSample.

(** * Properties *)

Import Primitives.

(** ** Numeric primitives *)

Lemma fold_step_decreases (s : Z) : 0xFF < s -> 0 <= fold_step s < s.
Proof.
  intros Hs. unfold fold_step.
  change 0xFF with (Z.ones 8). rewrite Z.land_ones by lia.
  rewrite Z.shiftr_div_pow2 by lia. change (2 ^ 8) with 256.
  pose proof (Z.mod_pos_bound s 256 ltac:(lia)).
  pose proof (Z.div_mod s 256 ltac:(lia)).
  assert (1 <= s / 256) by (apply Z.div_le_lower_bound; lia).
  lia.
Qed.

Lemma fold_carries_fuel_enough (fuel : nat) (s : Z) :
  (Z.to_nat s <= fuel)%nat -> carry_folded s (fold_carries_fuel fuel s).
Proof.
  revert s. induction fuel as [|fuel IH]; intros s Hfuel; simpl.
  - apply carry_done. lia.
  - destruct (0xFF <? s) eqn:Hgt.
    + apply Z.ltb_lt in Hgt. apply carry_turn; [exact Hgt|].
      apply IH. pose proof (fold_step_decreases s Hgt). lia.
    + apply Z.ltb_ge in Hgt. now apply carry_done.
Qed.

Lemma carry_folded_functional (s r1 r2 : Z) :
  carry_folded s r1 -> carry_folded s r2 -> r1 = r2.
Proof.
  intros H1. revert r2. induction H1 as [s Hs|s r Hs _ IH]; intros r2 H2.
  - inversion H2; subst; [reflexivity | lia].
  - inversion H2; subst; [lia | now apply IH].
Qed.

Lemma fold_carries_folded (s : Z) : carry_folded s (fold_carries s).
Proof. apply fold_carries_fuel_enough. reflexivity. Qed.

(** The loop equation: the fuel of [fold_carries] never runs out. *)
Lemma fold_carries_eq (s : Z) :
  fold_carries s = if 0xFF <? s then fold_carries (fold_step s) else s.
Proof.
  destruct (0xFF <? s) eqn:Hgt.
  - apply Z.ltb_lt in Hgt.
    apply (carry_folded_functional s); [apply fold_carries_folded|].
    apply carry_turn; [exact Hgt | apply fold_carries_folded].
  - apply Z.ltb_ge in Hgt.
    apply (carry_folded_functional s); [apply fold_carries_folded|].
    now apply carry_done.
Qed.

Lemma int_values_ints (D : list Z) : int_values (map PyInt D) = D.
Proof.
  induction D as [|d D IH]; [reflexivity|].
  change (int_values (map PyInt (d :: D))) with (d :: int_values (map PyInt D)).
  now rewrite IH.
Qed.



Example calculate_checksum_folds_carry :
  calculate_checksum (map PyInt [0xFF; 0xFF; 0xFF; 0x03]) None = Ok 0xFC.
Proof. reflexivity. Qed.

Lemma small_id_cases (frame_id : Z) :
  0 <= frame_id <= 63 -> In frame_id (map Z.of_nat (seq 0 64)).
Proof.
  intros Hr. apply in_map_iff. exists (Z.to_nat frame_id).
  split; [lia | apply in_seq; lia].
Qed.

Lemma calculate_pid_in_range (frame_id : Z) :
  0 <= frame_id <= 63 ->
  calculate_pid frame_id = Ok (expected_pid frame_id)
  /\ expected_pid (expected_pid frame_id) = expected_pid frame_id.
Proof.
  intros Hr. apply small_id_cases in Hr. simpl in Hr.
  repeat (destruct Hr as [<- | Hr]; [split; reflexivity|]).
  destruct Hr.
Qed.

Lemma calculate_pid_out_of_range (frame_id : Z) :
  frame_id < 0 \/ 63 < frame_id -> calculate_pid frame_id = Raise ValueError.
Proof.
  intros Hout. unfold calculate_pid.
  assert ((0 <=? frame_id) && (frame_id <=? 0x3F) = false) as ->; [|reflexivity].
  apply andb_false_iff.
  destruct Hout; [left; apply Z.leb_gt | right; apply Z.leb_gt]; lia.
Qed.

Section Parity.
Context {F : Type}.

(** C7.  For a frame id in [0,63] [calculate_pid] returns the id with
    P0 = b0^b1^b2^b4 in bit 6 and P1 = not (b1^b3^b4^b5) in bit 7, and
    [validate_id_parity] recomputes that same PID, so it leaves the parity
    buckets as they were; outside [0,63] [calculate_pid] raises. *)
Theorem calculate_pid_passes_parity (frame_id : Z) :
  (0 <= frame_id <= 63 ->
   exists pid,
     calculate_pid frame_id = Ok pid
     /\ Z.land pid 0x3F = frame_id
     /\ Z.testbit pid 6 =
          xorb (xorb (xorb (Z.testbit frame_id 0) (Z.testbit frame_id 1))
                     (Z.testbit frame_id 2)) (Z.testbit frame_id 4)
     /\ Z.testbit pid 7 =
          negb (xorb (xorb (xorb (Z.testbit frame_id 1) (Z.testbit frame_id 3))
                           (Z.testbit frame_id 4)) (Z.testbit frame_id 5))
     /\ expected_pid pid = pid
     /\ forall (entry : LogEntry F) (parity : gmap Z (Bucket F)),
          frame_id_int entry = pid -> validate_id_parity entry parity = parity)
  /\ (frame_id < 0 \/ 63 < frame_id -> calculate_pid frame_id = Raise ValueError).
Proof.
  split.
  - intros Hr. apply small_id_cases in Hr. simpl in Hr.
    assert (Hpar : forall pid, expected_pid pid = pid ->
              forall (entry : LogEntry F) (parity : gmap Z (Bucket F)),
                frame_id_int entry = pid -> validate_id_parity entry parity = parity).
    { intros pid Hpid entry parity Hid. unfold validate_id_parity.
      rewrite Hid, Hpid, Z.eqb_refl. simpl.
      now destruct (negb (String.eqb (channel entry) "LIN") || (pid <? 64)). }
    repeat (destruct Hr as [<- | Hr];
            [eexists; split; [reflexivity|];
             repeat split; try reflexivity; apply Hpar; reflexivity|]).
    destruct Hr.
  - apply calculate_pid_out_of_range.
Qed.

End Parity.

Lemma calculate_pid_passes_parity_witness :
  0 <= 2 <= 63 /\
  (exists pid, calculate_pid 2 = Ok pid /\ expected_pid pid = pid) /\
  (63 < 0x42 /\ calculate_pid 0x42 = Raise ValueError).
Proof.
  split; [lia|]. split.
  - destruct (proj1 (calculate_pid_passes_parity (F := Q) 2) ltac:(lia))
      as (pid & Hpid & _ & _ & _ & Hexp & _).
    exists pid. split; assumption.
  - split; [lia|].
    apply (proj2 (calculate_pid_passes_parity (F := Q) 0x42)). right. lia.
Defined.

(** ** Checksum validator *)

Section ChecksumValidator.
Context {F : Type}.

(** C3 (amended).  On a LIN Rx record with a declared checksum and an
    enhanced CSM, an identifier in [0,63] makes the validator compare
    against the classic checksum of [[calculate_pid(id)] + data] and put a
    mismatch in the bucket keyed (id, expected, observed); an identifier
    outside [0,63] makes it return with the buckets untouched. *)
Theorem validate_lin_checksum_enhanced
    (entry : LogEntry F) (ldf_id_to_frame_map : gmap Z (LDFFrame F))
    (checksum : gmap (Z * Z * Z) (Bucket F)) (declared : Z) (c : string) :
  channel entry = "LIN"%string ->
  Str.lower (type entry) = "rx"%string ->
  declared_checksum entry = Some declared ->
  csm entry = Some c ->
  Str.lower c = "enhanced"%string ->
  (0 <= frame_id_int entry <= 63 ->
   exists pid expected,
     calculate_pid (frame_id_int entry) = Ok pid
     /\ calculate_checksum (PyInt pid :: map PyInt (data entry)) None = Ok expected
     /\ validate_lin_checksum entry ldf_id_to_frame_map checksum
        = Ok (if expected =? declared then checksum
              else
                let key := (frame_id_int entry, expected, declared) in
                <[key := record_in (default empty_bucket (checksum !! key))
                           (timestamp entry) (raw_line entry)
                           (Some (match ldf_id_to_frame_map !! frame_id_int entry with
                                  | Some f => lf_name f
                                  | None => frame_id entry
                                  end))]> checksum))
  /\ (frame_id_int entry < 0 \/ 63 < frame_id_int entry ->
      validate_lin_checksum entry ldf_id_to_frame_map checksum = Ok checksum).
Proof.
  intros Hch Hty Hdecl Hcsm Hc.
  assert (Hleave : match data entry with
                   | [] => match csm entry with
                           | None => Raise AttributeError
                           | Some c => Ok (negb (String.eqb (Str.lower c) "enhanced"))
                           end
                   | _ :: _ => Ok false
                   end = Ok false).
  { rewrite Hcsm, Hc. now destruct (data entry). }
  unfold validate_lin_checksum.
  rewrite Hch, Hty, Hdecl, Hleave, Hcsm.
  cbn -[calculate_checksum calculate_pid]. rewrite Hc.
  cbn -[calculate_checksum calculate_pid].
  split.
  - intros Hr.
    destruct (calculate_pid_in_range _ Hr) as [Hpid _].
    rewrite Hpid. exists (expected_pid (frame_id_int entry)).
    destruct (calculate_checksum
                (PyInt (expected_pid (frame_id_int entry)) :: map PyInt (data entry)) None)
      as [expected|e] eqn:Hsum.
    + exists expected. split; [reflexivity|]. split; [reflexivity|].
      now destruct (expected =? declared).
    + unfold calculate_checksum in Hsum. simpl in Hsum.
      destruct (int_values (map PyInt (data entry))); discriminate.
  - intros Hout.
    now rewrite (calculate_pid_out_of_range _ Hout).
Qed.

End ChecksumValidator.

Lemma validate_lin_checksum_enhanced_witness :
  0 <= frame_id_int lin_02 <= 63 /\
  exists pid expected,
    calculate_pid (frame_id_int lin_02) = Ok pid
    /\ calculate_checksum (PyInt pid :: map PyInt (data lin_02)) None = Ok expected
    /\ validate_lin_checksum lin_02 no_frames no_buckets
       = Ok (if expected =? 0 then no_buckets
             else
               let key := (frame_id_int lin_02, expected, 0) in
               <[key := record_in (default empty_bucket (no_buckets !! key))
                          (timestamp lin_02) (raw_line lin_02)
                          (Some (match no_frames !! frame_id_int lin_02 with
                                 | Some f => lf_name f
                                 | None => frame_id lin_02
                                 end))]> no_buckets).
Proof.
  assert (Hr : 0 <= frame_id_int lin_02 <= 63) by (simpl; lia).
  split; [exact Hr|].
  exact (proj1 (validate_lin_checksum_enhanced lin_02 no_frames no_buckets 0
                  "Enhanced" eq_refl eq_refl eq_refl eq_refl eq_refl) Hr).
Defined.

Example enhanced_mismatch_bucket :
  exists b,
    validate_lin_checksum (enhanced_record "02" 2) no_frames no_buckets
    = Ok {[ (2, 0xBD, 0) := b ]} /\ count b = 1.
Proof. eexists. split; [vm_compute; reflexivity | reflexivity]. Qed.

(** C3 as stated fails on a logged full PID: for [0x42] (the PID of id 2)
    the checksum recomputed from [pid_raw & 0x3F] is 0xBD, the declared
    one is 0x00, and no bucket is recorded. *)
Lemma validate_lin_checksum_skips_full_pid :
  calculate_pid (Z.land 0x42 0x3F) = Ok 0x42
  /\ calculate_checksum (PyInt 0x42 :: map PyInt [5; 0xFA]) None = Ok 0xBD
  /\ 0xBD <> 0
  /\ validate_lin_checksum (enhanced_record "42" 0x42) no_frames no_buckets
     = Ok no_buckets
  /\ no_buckets !! (0x42, 0xBD, 0) = None.
Proof. repeat split; try reflexivity. lia. Qed.

(** ** Log tokenizer and parse counters *)

Section Counters.
Context {F : Type} `{PyFloat F}.

Lemma parse_line_no_match (l : Line) :
  matches l = no_match -> parse_line (F := F) l = None.
Proof. intros Hm. unfold parse_line. now rewrite Hm. Qed.

Lemma parse_log_app (l1 l2 : list Line) :
  parse_log (F := F) (l1 ++ l2) = parse_log l1 ++ parse_log l2.
Proof. unfold parse_log. apply omap_app. Qed.

Lemma process_entry_counts (config : Config F)
    (ldf_id_to_frame : gmap Z (LDFFrame F)) (valid : list string)
    (gateway_lookup : GatewayLookup F) (entry : LogEntry F)
    (st st' : RunState F) :
  process_entry config ldf_id_to_frame valid gateway_lookup entry st = Ok st' ->
  processed (log_stats st') = processed (log_stats st) + 1
  /\ skipped (log_stats st')
     = skipped (log_stats st) + (if gated valid entry then 1 else 0).
Proof.
  unfold process_entry, gated.
  destruct (Str.starts_with "CAN" (channel entry)
            && negb (bool_decide (channel entry ∈ valid))).
  - intros [= <-]. simpl. lia.
  - destruct (if String.eqb (channel entry) "LIN" && enable_checksum_validation config
              then validate_lin_checksum entry ldf_id_to_frame _
              else Ok _) as [checksum'|e]; [|discriminate].
    cbn [rbind].
    destruct (enable_gateway_validation config && _).
    + destruct (capture_all source_signal_obj entry _ _) as [[src_evs results]|e];
        [|discriminate].
      cbn [rbind].
      destruct (capture_all target_signal_obj entry _ _) as [[tgt_evs results']|e];
        [|discriminate].
      intros [= <-]. simpl. lia.
    + intros [= <-]. simpl. lia.
Qed.

Lemma process_entries_counts (config : Config F)
    (ldf_id_to_frame : gmap Z (LDFFrame F)) (valid : list string)
    (gateway_lookup : GatewayLookup F) (entries : list (LogEntry F))
    (st st' : RunState F) :
  process_entries config ldf_id_to_frame valid gateway_lookup entries st = Ok st' ->
  processed (log_stats st') = processed (log_stats st) + Z.of_nat (length entries)
  /\ skipped (log_stats st')
     = skipped (log_stats st)
       + Z.of_nat (length (filter (fun e => gated valid e = true) entries)).
Proof.
  revert st. induction entries as [|entry rest IH]; intros st; simpl.
  - intros [= <-]. lia.
  - destruct (process_entry config ldf_id_to_frame valid gateway_lookup entry st)
      as [st1|e] eqn:Hone; [|discriminate].
    cbn [rbind]. intros Hrest.
    apply process_entry_counts in Hone. apply IH in Hrest.
    rewrite filter_cons. destruct Hone as [Hp Hs], Hrest as [Hp' Hs'].
    destruct (gated valid entry) eqn:Hg; case_decide; try congruence;
      simpl length; lia.
Qed.

(** C5 (amended).  A line that matches none of the record patterns yields
    no record and changes nothing in the statistics: the run is the run of
    the log without that line.  The skipped counter of a finished run is
    the number of CAN and CAN-FD records whose channel has no database;
    unmatched lines are not counted anywhere. *)
Theorem unmatched_lines_are_dropped_uncounted
    (before after : list Line) (bad : Line)
    (ldf_data : LDFData F) (can_dbcs : list (string * list (Z * DBCMessage F)))
    (gateway_lookup : GatewayLookup F) (config : Config F) :
  matches bad = no_match ->
  parse_log (F := F) [bad] = []
  /\ process_log_file (before ++ bad :: after) ldf_data can_dbcs gateway_lookup config
     = process_log_file (before ++ after) ldf_data can_dbcs gateway_lookup config
  /\ forall stats,
       process_log_file (before ++ bad :: after) ldf_data can_dbcs gateway_lookup config
       = Ok stats ->
       processed stats = Z.of_nat (length (parse_log (F := F) (before ++ after)))
       /\ skipped stats
          = Z.of_nat (length (filter (fun e => gated (Dict.keys can_dbcs) e = true)
                                (parse_log (F := F) (before ++ after)))).
Proof.
  intros Hbad.
  assert (Hone : parse_log (F := F) [bad] = []).
  { unfold parse_log. simpl. destruct (raw_line_stripped bad); [reflexivity|].
    now rewrite (parse_line_no_match bad Hbad). }
  assert (Hlog : parse_log (F := F) (before ++ bad :: after)
                 = parse_log (before ++ after)).
  { change (bad :: after) with ([bad] ++ after).
    now rewrite !parse_log_app, Hone. }
  split; [exact Hone|]. split.
  - unfold process_log_file. now rewrite Hlog.
  - intros stats. unfold process_log_file. rewrite Hlog.
    destruct (process_entries _ _ _ _ _ _) as [st|e] eqn:Hrun; [|discriminate].
    cbn [rbind]. intros [= <-]. simpl.
    apply process_entries_counts in Hrun. simpl in Hrun. lia.
Qed.

End Counters.

Lemma unmatched_lines_are_dropped_uncounted_witness :
  matches Sample.header_line = no_match
  /\ parse_log (F := Q) [Sample.header_line] = [].
Proof.
  split; [reflexivity|].
  exact (proj1 (unmatched_lines_are_dropped_uncounted (F := Q) [] []
                  Sample.header_line Sample.ldf [] Sample.no_gateway
                  (Sample.config false) eq_refl)).
Defined.

(** C5 as stated fails: a log made of one unmatched line gives no record
    and a finished run whose skipped counter is still 0. *)
Lemma unmatched_line_leaves_skipped_at_zero :
  parse_log (F := Q) [Sample.header_line] = []
  /\ exists stats,
       process_log_file [Sample.header_line] Sample.ldf [] Sample.no_gateway
         (Sample.config false) = Ok stats
       /\ skipped stats = 0
       /\ processed stats = 0.
Proof. split; [reflexivity|]. eexists. repeat split. Qed.

(** C1.  Record content can make the engine raise.  A LIN Rx record with
    a checksum, no data bytes and no CSM field raises [AttributeError] in
    [validate_lin_checksum]; a CAN record shorter than a mapped Motorola
    signal raises [IndexError] in the gateway event capture.  Neither is
    caught in [process_log_file]. *)
Theorem record_content_raises :
  (exists entry,
      parse_log (F := Q) [Sample.checksum_only_line] = [entry]
      /\ validate_lin_checksum entry (ldf_id_to_frame_of Sample.ldf) ∅
         = Raise AttributeError)
  /\ process_log_file [Sample.checksum_only_line] Sample.ldf [] Sample.no_gateway
       (Sample.config false) = Raise AttributeError
  /\ (exists entry,
         parse_log (F := Q) [Sample.short_can_line] = [entry]
         /\ data entry = [5]
         /\ capture_all target_signal_obj entry [Sample.mapping_A_to_B] (∅, ∅)
            = Raise IndexError)
  /\ process_log_file [Sample.first_frame_line; Sample.short_can_line]
       Sample.ldf Sample.can_dbcs Sample.gateway_lookup (Sample.config true)
     = Raise IndexError.
Proof.
  split; [|split; [|split]].
  - eexists. split; [vm_compute; reflexivity|]. vm_compute. reflexivity.
  - vm_compute. reflexivity.
  - eexists. split; [vm_compute; reflexivity|]. split; [reflexivity|].
    vm_compute. reflexivity.
  - vm_compute. reflexivity.
Qed.

(** ** Gateway correlation counters *)

Section GatewayCounters.
Context {F : Type} `{PyFloat F}.

Lemma new_gateway_result_balanced : balanced new_gateway_result.
Proof. reflexivity. Qed.

Lemma all_balanced_insert (results : gmap Z (GatewayResult F)) idx res :
  all_balanced results -> balanced res -> all_balanced (<[idx := res]> results).
Proof.
  intros Hall Hres j r. rewrite lookup_insert. case_decide.
  - now intros [= <-].
  - apply Hall.
Qed.

Lemma all_balanced_default (results : gmap Z (GatewayResult F)) idx :
  all_balanced results -> balanced (default new_gateway_result (results !! idx)).
Proof.
  intros Hall. destruct (results !! idx) as [r|] eqn:Hr; simpl.
  - eapply Hall, Hr.
  - apply new_gateway_result_balanced.
Qed.

(** Every target event adds one comparison and one outcome. *)
Lemma correlate_target_balanced tolerance src_details tgt_details target
    (remaining : list (F * Z)) (res : GatewayResult F) :
  balanced res ->
  balanced (correlate_target tolerance src_details tgt_details target
              (remaining, res)).2.
Proof.
  unfold balanced, correlate_target. intros Hres.
  destruct target as [ts_target raw_target].
  destruct (best_candidate _ ts_target None) as [[ts_source raw_source]|].
  - destruct (compare_gateway_values _ _ _ _) as [is_match c_type].
    destruct is_match; simpl; [lia|].
    destruct (String.eqb c_type "hybrid_mismatch"); lia.
  - simpl. lia.
Qed.

Lemma correlate_targets_balanced tolerance src_details tgt_details
    (sources targets : list (F * Z)) (res : GatewayResult F) :
  balanced res ->
  balanced (correlate_targets tolerance src_details tgt_details sources targets res).
Proof.
  unfold correlate_targets. revert sources res.
  induction targets as [|target rest IH]; intros sources res Hres; cbn [foldl].
  - exact Hres.
  - pose proof (correlate_target_balanced tolerance src_details tgt_details
                  target sources res Hres) as Hstep.
    destruct (correlate_target _ _ _ target (sources, res)) as [remaining res'].
    now apply IH.
Qed.

Lemma correlate_mapping_balanced tolerance ldf_sigs dbc_sigs
    (source_events : events) (results : gmap Z (GatewayResult F)) item :
  all_balanced results ->
  all_balanced (correlate_mapping tolerance ldf_sigs dbc_sigs source_events
                  results item).
Proof.
  intros Hall. unfold correlate_mapping. destruct item as [map_idx targets].
  destruct (default [] (source_events !! map_idx)) as [|s sources];
    [destruct targets; exact Hall|].
  destruct targets as [|t targets]; [exact Hall|].
  pose proof (all_balanced_default results map_idx Hall) as Hres.
  pose proof (all_balanced_insert results map_idx _ Hall Hres) as Hins.
  destruct (mapping_info _) as [info|]; [|exact Hins].
  destruct (_get_comparison_details (source_signal info) _ _ _); [|exact Hins].
  destruct (_get_comparison_details (target_signal info) _ _ _); [|exact Hins].
  apply all_balanced_insert; [exact Hins|].
  now apply correlate_targets_balanced.
Qed.

Lemma post_process_balanced (results : gmap Z (GatewayResult F))
    (source_events target_events : events) tolerance ldf_data can_dbcs :
  all_balanced results ->
  all_balanced (_post_process_gateway_correlation results source_events
                  target_events tolerance ldf_data can_dbcs).
Proof.
  unfold _post_process_gateway_correlation.
  generalize (map_to_list target_events). intros items. revert results.
  induction items as [|item rest IH]; intros results Hall; cbn [foldl].
  - exact Hall.
  - apply IH. now apply correlate_mapping_balanced.
Qed.

Lemma capture_one_balanced sig_obj (entry : LogEntry F) m
    (evs evs' : events) (results results' : gmap Z (GatewayResult F)) :
  capture_one sig_obj entry m (evs, results) = Ok (evs', results') ->
  all_balanced results -> all_balanced results'.
Proof.
  unfold capture_one. intros Hcap Hall.
  destruct (sig_obj m) as [sig_info|]; [|now injection Hcap as _ <-].
  destruct (so_start_bit sig_info); [|now injection Hcap as _ <-].
  destruct (so_length sig_info); [|now injection Hcap as _ <-].
  destruct (data entry) as [|b bs]; [now injection Hcap as _ <-|].
  destruct (extract_signal_value _ _ _ _ _) as [raw_val|e]; [|discriminate].
  cbn [rbind] in Hcap. injection Hcap as _ <-.
  apply all_balanced_insert; [exact Hall|].
  pose proof (all_balanced_default results (map_index m) Hall) as Hres.
  destruct (mapping_info _); exact Hres.
Qed.

Lemma capture_all_balanced sig_obj (entry : LogEntry F) maps
    (evs evs' : events) (results results' : gmap Z (GatewayResult F)) :
  capture_all sig_obj entry maps (evs, results) = Ok (evs', results') ->
  all_balanced results -> all_balanced results'.
Proof.
  revert evs results.
  induction maps as [|m rest IH]; intros evs results; cbn [capture_all].
  - now intros [= _ <-].
  - destruct (capture_one sig_obj entry m (evs, results)) as [[evs1 results1]|e]
      eqn:Hone; [|discriminate].
    cbn [rbind]. intros Hrest Hall.
    eapply IH; [exact Hrest|]. eapply capture_one_balanced; eauto.
Qed.

Lemma process_entry_balanced config ldf_id_to_frame valid gateway_lookup
    (entry : LogEntry F) (st st' : RunState F) :
  process_entry config ldf_id_to_frame valid gateway_lookup entry st = Ok st' ->
  all_balanced (gateway_results (log_stats st)) ->
  all_balanced (gateway_results (log_stats st')).
Proof.
  unfold process_entry.
  destruct (Str.starts_with "CAN" (channel entry)
            && negb (bool_decide (channel entry ∈ valid))).
  - now intros [= <-].
  - destruct (if String.eqb (channel entry) "LIN" && enable_checksum_validation config
              then validate_lin_checksum entry ldf_id_to_frame _
              else Ok _) as [checksum'|e]; [|discriminate].
    cbn [rbind].
    destruct (enable_gateway_validation config && _); [|now intros [= <-]].
    destruct (capture_all source_signal_obj entry _ _) as [[src_evs results]|e]
      eqn:Hsrc; [|discriminate].
    cbn [rbind].
    destruct (capture_all target_signal_obj entry _ _) as [[tgt_evs results']|e]
      eqn:Htgt; [|discriminate].
    intros [= <-] Hall. simpl.
    eapply capture_all_balanced; [exact Htgt|].
    eapply capture_all_balanced; [exact Hsrc|]. exact Hall.
Qed.

Lemma process_entries_balanced config ldf_id_to_frame valid gateway_lookup
    (entries : list (LogEntry F)) (st st' : RunState F) :
  process_entries config ldf_id_to_frame valid gateway_lookup entries st = Ok st' ->
  all_balanced (gateway_results (log_stats st)) ->
  all_balanced (gateway_results (log_stats st')).
Proof.
  revert st. induction entries as [|entry rest IH]; intros st; simpl.
  - now intros [= <-].
  - destruct (process_entry config ldf_id_to_frame valid gateway_lookup entry st)
      as [st1|e] eqn:Hone; [|discriminate].
    cbn [rbind]. intros Hrest Hall.
    eapply IH; [exact Hrest|]. eapply process_entry_balanced; eauto.
Qed.

(** C8.  The post-pass keeps every gateway result balanced:
    comparisons = matches + mismatches_value + mismatches_type
    + mismatches_timing.  The results the record loop hands to it are
    balanced (all counters zero), so every mapping index of a finished
    run is. *)
Theorem gateway_counters_balanced :
  (forall (results : gmap Z (GatewayResult F))
          (source_events target_events : events) tolerance ldf_data can_dbcs
          idx res,
      all_balanced results ->
      _post_process_gateway_correlation results source_events target_events
        tolerance ldf_data can_dbcs !! idx = Some res ->
      comparisons res
      = matches_ res + mismatches_value res + mismatches_type res
        + mismatches_timing res)
  /\ (forall lines ldf_data can_dbcs gateway_lookup config stats idx res,
         process_log_file lines ldf_data can_dbcs gateway_lookup config = Ok stats ->
         gateway_results stats !! idx = Some res ->
         comparisons res
         = matches_ res + mismatches_value res + mismatches_type res
           + mismatches_timing res).
Proof.
  split.
  - intros results source_events target_events tolerance ldf_data can_dbcs
      idx res Hall Hres.
    exact (post_process_balanced results source_events target_events tolerance
             ldf_data can_dbcs Hall idx res Hres).
  - intros lines ldf_data can_dbcs gateway_lookup config stats idx res.
    unfold process_log_file.
    destruct (process_entries _ _ _ _ _ _) as [st|e] eqn:Hrun; [|discriminate].
    cbn [rbind]. intros [= <-]. simpl.
    rewrite lookup_fmap. intros Hres.
    apply process_entries_balanced in Hrun;
      [|intros j r Hj; cbn in Hj; now rewrite lookup_empty in Hj].
    assert (Hall : all_balanced
              (if enable_gateway_validation config
               then _post_process_gateway_correlation (gateway_results (log_stats st))
                      (gateway_source_events st) (gateway_target_events st)
                      (gateway_tolerance config) ldf_data can_dbcs
               else gateway_results (log_stats st))).
    { destruct (enable_gateway_validation config); [|exact Hrun].
      now apply post_process_balanced. }
    destruct (_ !! idx) as [r|] eqn:Hr; [|discriminate].
    injection Hres as <-. simpl. exact (Hall idx r Hr).
Qed.

End GatewayCounters.

(** ** Schedule grouping *)

Section DictFacts.
Context {K V : Type} `{EqDecision K}.

Lemma dict_get_set_eq (d : list (K * V)) k v :
  Dict.get (Dict.set d k v) k = Some v.
Proof.
  induction d as [|[k' v'] d IH]; simpl.
  - now rewrite decide_True.
  - destruct (decide (k' = k)); simpl.
    + now rewrite decide_True.
    + now rewrite decide_False.
Qed.

Lemma dict_get_set_ne (d : list (K * V)) k k' v :
  k <> k' -> Dict.get (Dict.set d k v) k' = Dict.get d k'.
Proof.
  intros Hne. induction d as [|[k0 v0] d IH]; simpl.
  - now rewrite decide_False.
  - destruct (decide (k0 = k)) as [->|]; simpl.
    + now rewrite !decide_False.
    + destruct (decide (k0 = k')); [reflexivity | exact IH].
Qed.

Lemma dict_keys_set_in (d : list (K * V)) k v :
  k ∈ Dict.keys d -> Dict.keys (Dict.set d k v) = Dict.keys d.
Proof.
  unfold Dict.keys. induction d as [|[k0 v0] d IH]; simpl; intros Hin.
  - now apply elem_of_nil in Hin.
  - destruct (decide (k0 = k)) as [->|Hne]; simpl; [reflexivity|].
    f_equal. apply IH. apply elem_of_cons in Hin as [->|]; [done | assumption].
Qed.

Lemma dict_keys_set_notin (d : list (K * V)) k v :
  k ∉ Dict.keys d -> Dict.keys (Dict.set d k v) = Dict.keys d ++ [k].
Proof.
  unfold Dict.keys. induction d as [|[k0 v0] d IH]; simpl; intros Hin.
  - reflexivity.
  - apply not_elem_of_cons in Hin as [Hne Hin].
    rewrite decide_False by congruence. simpl. f_equal. now apply IH.
Qed.

Lemma dict_get_tabulate (f : K -> V) (l : list K) k :
  k ∈ l -> Dict.get (map (fun r => (r, f r)) l) k = Some (f k).
Proof.
  induction l as [|x l IH]; simpl; intros Hin.
  - now apply elem_of_nil in Hin.
  - destruct (decide (x = k)) as [->|Hne]; [reflexivity|].
    apply IH. apply elem_of_cons in Hin as [->|]; [done | assumption].
Qed.

Lemma dict_keys_tabulate (f : K -> V) (l : list K) :
  Dict.keys (map (fun r => (r, f r)) l) = l.
Proof.
  unfold Dict.keys. induction l as [|x l IH]; simpl; [reflexivity|].
  now rewrite IH.
Qed.

Lemma dict_get_in_keys (d : list (K * V)) k v :
  Dict.get d k = Some v -> k ∈ Dict.keys d.
Proof.
  unfold Dict.keys. induction d as [|[k0 v0] d IH]; simpl; [discriminate|].
  destruct (decide (k0 = k)) as [->|]; intros Hget.
  - apply elem_of_cons. now left.
  - apply elem_of_cons. right. now apply IH.
Qed.

End DictFacts.

Lemma str_le_spec (x y : string) :
  str_le x y <-> x = y \/ String_as_OT.lt x y.
Proof.
  unfold str_le, String.leb.
  pose proof (String_as_OT.cmp_eq x y) as Heq.
  pose proof (String_as_OT.cmp_lt x y) as Hlt.
  unfold String_as_OT.cmp in *.
  destruct (String.compare x y); split; intros Hc;
    try discriminate; try tauto.
  destruct Hc as [Hc|Hc]; [apply Heq in Hc | apply Hlt in Hc]; discriminate.
Qed.

#[local] Instance str_le_trans : Transitive str_le.
Proof.
  intros x y z. rewrite !str_le_spec.
  intros [->|Hxy] [->|Hyz]; auto.
  right. eapply String_as_OT.lt_trans; eauto.
Qed.

Lemma str_le_total (x y : string) : str_le x y \/ str_le y x.
Proof. apply String.leb_total. Qed.

Lemma insert_elem (x y : string) (l : list string) :
  y ∈ Sorting.insert x l <-> y = x \/ y ∈ l.
Proof.
  induction l as [|z l IH]; simpl.
  - set_solver.
  - destruct (String.leb x z); rewrite !elem_of_cons; [tauto|].
    rewrite IH. tauto.
Qed.

Lemma insert_sorted (x : string) (l : list string) :
  StronglySorted str_le l -> StronglySorted str_le (Sorting.insert x l).
Proof.
  induction l as [|z l IH]; simpl; intros Hs.
  - repeat constructor.
  - destruct (String.leb x z) eqn:Hxz.
    + apply StronglySorted_cons. split; [|exact Hs].
      apply StronglySorted_cons in Hs as [Hz _].
      constructor; [exact Hxz|].
      eapply Forall_impl; [exact Hz|]. intros w Hw. now transitivity z.
    + apply StronglySorted_cons in Hs as [Hz Hs].
      apply StronglySorted_cons. split; [|now apply IH].
      apply Forall_forall. intros w Hw. apply insert_elem in Hw as [->|Hw].
      * destruct (str_le_total x z) as [Hc|Hc]; [|exact Hc].
        unfold str_le in Hc. congruence.
      * rewrite Forall_forall in Hz. now apply Hz.
Qed.

Lemma sorted_sorted (l : list string) : StronglySorted str_le (Sorting.sorted l).
Proof.
  induction l as [|x l IH]; simpl; [constructor | now apply insert_sorted].
Qed.

Lemma sorted_elem (x : string) (l : list string) : x ∈ Sorting.sorted l <-> x ∈ l.
Proof.
  induction l as [|y l IH]; simpl; [reflexivity|].
  rewrite insert_elem, elem_of_cons, IH. tauto.
Qed.

Lemma sorted_id (l : list string) :
  StronglySorted str_le l -> Sorting.sorted l = l.
Proof.
  induction l as [|x l IH]; simpl; intros Hs; [reflexivity|].
  apply StronglySorted_cons in Hs as [Hx Hs]. rewrite (IH Hs).
  destruct l as [|y l]; [reflexivity|]. simpl.
  apply Forall_cons in Hx as [Hxy _]. unfold str_le in Hxy. now rewrite Hxy.
Qed.

Section GrouperFacts.
Variable content_hash : list ScheduleEntry -> string.
Variable schedules : list (string * list ScheduleEntry).

Local Notation "'step'" := (group_step content_hash schedules).
Local Notation "'body'" := (body_of schedules).
Local Notation "'h2r'" := hash_to_representative_name.
Local Notation "'o2r'" := original_name_to_representative_name_map.
Local Notation "'reps'" := representatives.
Local Notation "'inv'" := (group_inv content_hash schedules).

Lemma group_init_inv : inv group_init.
Proof.
  repeat split; simpl; intros *; try rewrite lookup_empty; try discriminate.
  intros Hin. now apply elem_of_nil in Hin.
Qed.

Lemma step_new (st : GroupState) (n : string) :
  inv st ->
  h2r st !! content_hash (body n) = None ->
  h2r (step st n) = <[content_hash (body n) := n]> (h2r st)
  /\ o2r (step st n) = <[n := n]> (o2r st)
  /\ reps (step st n) = reps st ++ [n].
Proof.
  intros (_ & _ & Hrep) Hnew. unfold group_step. rewrite Hnew. simpl.
  rewrite lookup_insert_eq. simpl. repeat split.
  apply dict_keys_set_notin. intros Hin. apply Hrep in Hin. congruence.
Qed.

Lemma step_old (st : GroupState) (n r : string) :
  inv st ->
  h2r st !! content_hash (body n) = Some r ->
  h2r (step st n) = h2r st
  /\ o2r (step st n) = <[n := r]> (o2r st)
  /\ reps (step st n) = reps st.
Proof.
  intros (_ & Hval & _) Hold. unfold group_step. rewrite Hold. simpl.
  rewrite Hold. simpl. repeat split.
  apply dict_keys_set_in. now apply Hval in Hold.
Qed.

Lemma step_inv (st : GroupState) (n : string) :
  inv st -> inv (step st n).
Proof.
  intros Hinv. pose proof Hinv as (Ho & Hh & Hr). unfold group_inv in *.
  destruct (h2r st !! content_hash (body n)) as [r0|] eqn:Hn.
  - destruct (step_old st n r0 Hinv Hn) as (-> & -> & ->).
    split; [|split; assumption].
    intros m r. rewrite lookup_insert. case_decide.
    + intros [= <-]. now subst.
    + apply Ho.
  - destruct (step_new st n Hinv Hn) as (-> & -> & ->).
    split; [|split].
    + intros m r. rewrite lookup_insert. case_decide.
      * intros [= <-]. subst. apply lookup_insert_eq.
      * intros Hm. pose proof (Ho _ _ Hm) as Hm'.
        rewrite lookup_insert_ne; [exact Hm'|congruence].
    + intros h r. rewrite lookup_insert. case_decide.
      * intros [= <-]. subst. split; [reflexivity|].
        apply elem_of_app. right. apply list_elem_of_singleton. reflexivity.
      * intros Hm. apply Hh in Hm as [? ?]. split; [assumption|].
        apply elem_of_app. now left.
    + intros r Hin. apply elem_of_app in Hin as [Hin|Hin].
      * pose proof (Hr _ Hin) as Hm.
        rewrite lookup_insert_ne; [exact Hm|congruence].
      * apply list_elem_of_singleton in Hin as ->. apply lookup_insert_eq.
Qed.

Lemma step_covers (st : GroupState) (n m : string) :
  inv st ->
  (m = n \/ is_Some (o2r st !! m)) -> is_Some (o2r (step st n) !! m).
Proof.
  intros Hinv Hm.
  assert (Ho : exists r, o2r (step st n) = <[n := r]> (o2r st)).
  { destruct (h2r st !! content_hash (body n)) as [r0|] eqn:Hn.
    - exists r0. now destruct (step_old st n r0 Hinv Hn) as (_ & -> & _).
    - exists n. now destruct (step_new st n Hinv Hn) as (_ & -> & _). }
  destruct Ho as [r ->]. rewrite lookup_insert. case_decide; [eauto|].
  destruct Hm; [congruence | assumption].
Qed.

Lemma loop_inv (names : list string) (st : GroupState) :
  inv st ->
  inv (foldl step st names)
  /\ forall m, m ∈ names \/ is_Some (o2r st !! m) ->
               is_Some (o2r (foldl step st names) !! m).
Proof.
  revert st. induction names as [|n names IH]; intros st Hinv; cbn [foldl].
  - split; [exact Hinv|]. intros m [Hm|Hm]; [now apply elem_of_nil in Hm | exact Hm].
  - destruct (IH (step st n) (step_inv st n Hinv)) as [Hfinal Hcov].
    split; [exact Hfinal|]. intros m Hm. apply Hcov.
    destruct Hm as [Hm|Hm].
    + apply elem_of_cons in Hm as [->|Hm]; [|now left].
      right. apply step_covers; auto.
    + right. apply step_covers; auto.
Qed.

(** The representatives come out in the order of the sorted names. *)
Lemma loop_reps_sorted (names : list string) (st : GroupState) :
  inv st ->
  StronglySorted str_le (reps st ++ names) ->
  StronglySorted str_le (reps (foldl step st names)).
Proof.
  revert st. induction names as [|n names IH]; intros st Hinv Hs; cbn [foldl].
  - now rewrite app_nil_r in Hs.
  - apply IH; [now apply step_inv|].
    destruct (h2r st !! content_hash (body n)) as [r0|] eqn:Hn.
    + destruct (step_old st n r0 Hinv Hn) as (_ & _ & ->).
      apply StronglySorted_app in Hs as (Hcross & Hl & Hr).
      apply StronglySorted_cons in Hr as [_ Hr].
      apply StronglySorted_app. repeat split; try assumption.
      intros x1 x2 H1 H2. apply Hcross; [assumption|].
      apply elem_of_cons. now right.
    + destruct (step_new st n Hinv Hn) as (_ & _ & ->).
      now rewrite <- app_assoc.
Qed.

Lemma step_reps_nodup (st : GroupState) (n : string) :
  NoDup (reps st) -> NoDup (reps (step st n)).
Proof.
  intros Hnd. unfold representatives, group_step. cbn [representative_to_all_grouped_names_map].
  set (d := representative_to_all_grouped_names_map st) in *.
  set (k := default n _). set (v := _ ++ [n]).
  destruct (decide (k ∈ Dict.keys d)) as [Hin|Hin].
  - now rewrite dict_keys_set_in.
  - rewrite dict_keys_set_notin by assumption.
    apply NoDup_app. repeat split; [assumption| |apply NoDup_singleton].
    intros x Hx Hk. apply list_elem_of_singleton in Hk as ->. contradiction.
Qed.

Lemma loop_reps_nodup (names : list string) (st : GroupState) :
  NoDup (reps st) -> NoDup (reps (foldl step st names)).
Proof.
  revert st. induction names as [|n names IH]; intros st Hnd; cbn [foldl].
  - exact Hnd.
  - apply IH. now apply step_reps_nodup.
Qed.

(** On names with pairwise distinct hashes every name becomes a
    representative. *)
Lemma loop_all_fresh (names : list string) (st : GroupState) :
  inv st ->
  NoDup (reps st ++ names) ->
  (forall x y, x ∈ reps st ++ names -> y ∈ reps st ++ names ->
               content_hash (body x) = content_hash (body y) -> x = y) ->
  reps (foldl step st names) = reps st ++ names.
Proof.
  revert st. induction names as [|n names IH]; intros st Hinv Hnd Hdist; cbn [foldl].
  - now rewrite app_nil_r.
  - destruct (h2r st !! content_hash (body n)) as [r0|] eqn:Hn.
    + exfalso. destruct Hinv as (_ & Hh & _).
      destruct (Hh _ _ Hn) as [Hhash Hin].
      assert (r0 = n) as ->.
      { apply Hdist; [apply elem_of_app; now left| |exact Hhash].
        apply elem_of_app. right. apply elem_of_cons. now left. }
      apply NoDup_app in Hnd as (_ & Hcross & _).
      apply (Hcross n Hin). apply elem_of_cons. now left.
    + destruct (step_new st n Hinv Hn) as (_ & _ & Hreps).
      rewrite (IH (step st n)); rewrite ?Hreps, <- ?app_assoc; try assumption.
      * reflexivity.
      * now apply step_inv.
Qed.

End GrouperFacts.

Section GrouperClaim.
Variable content_hash : list ScheduleEntry -> string.

Lemma unique_schedules_unfold (schedules : list (string * list ScheduleEntry)) :
  unique_schedules content_hash schedules
  = map (fun rep_name => (rep_name, body_of schedules rep_name))
        (representatives (group_loop content_hash schedules)).
Proof. destruct schedules; reflexivity. Qed.

Lemma representative_unfold (schedules : list (string * list ScheduleEntry)) :
  (group_equivalent_schedules content_hash schedules).1.2
  = original_name_to_representative_name_map (group_loop content_hash schedules).
Proof. destruct schedules; reflexivity. Qed.

Lemma group_loop_facts (schedules : list (string * list ScheduleEntry)) :
  let st := group_loop content_hash schedules in
  group_inv content_hash schedules st
  /\ (forall m, m ∈ Dict.keys schedules ->
                is_Some (original_name_to_representative_name_map st !! m))
  /\ StronglySorted str_le (representatives st)
  /\ NoDup (representatives st).
Proof.
  unfold group_loop.
  destruct (loop_inv content_hash schedules
              (Sorting.sorted (Dict.keys schedules)) group_init
              (group_init_inv content_hash schedules)) as [Hinv Hcov].
  split; [exact Hinv|]. split; [|split].
  - intros m Hm. apply Hcov. left. now apply sorted_elem.
  - apply loop_reps_sorted; [apply group_init_inv|]. apply sorted_sorted.
  - apply loop_reps_nodup. constructor.
Qed.


End GrouperClaim.

(** ** Schedule cursor *)

Section ScheduleCursor.
Context {F : Type} `{PyFloat F}.

Lemma finalize_resets (current_ts : F) (status : string) (s : ScheduleStats F) :
  schedule_runtime_state (_finalize_cycle current_ts status s)
  = _reset_state (schedule_runtime_state s).
Proof.
  unfold _finalize_cycle.
  now destruct (negb (opt_truthy (cycle_start_timestamp (schedule_runtime_state s)))).
Qed.

(** After a [continue] no schedule is active, so the next turn is the last. *)
Lemma active_turn_continue_idle (ldf_data : LDFData F) (current_ts : F)
    (name : string) (tolerance_factor min_tolerance : F) (s s' : ScheduleStats F) :
  active_turn ldf_data current_ts name tolerance_factor min_tolerance s
  = Ok (Continue s') ->
  active_schedules (schedule_runtime_state s') = [].
Proof.
  unfold active_turn.
  destruct (expected_frames_info _ _ _) as [|i info].
  - intros [= <-]. now rewrite finalize_resets.
  - destruct (Dict.get (i :: info) name).
    + destruct (timing_all _ _ _ _ _ _ _ _ _) as [[[? ?] ?]|]; discriminate.
    + intros [= <-]. unfold sequence_mismatch. now rewrite finalize_resets.
Qed.

(** Two turns of [while True] always suffice. *)
Lemma schedule_loop_returns (fuel : nat) (ldf_data : LDFData F) (current_ts : F)
    (name : string) (tolerance_factor min_tolerance : F) (s : ScheduleStats F) :
  exists r,
    schedule_loop (S (S fuel)) ldf_data current_ts name tolerance_factor
      min_tolerance s = Some r.
Proof.
  cbn [schedule_loop].
  destruct (active_schedules (schedule_runtime_state s)); [eauto|].
  destruct (active_turn _ _ _ _ _ s) as [[s'|s']|e] eqn:Hturn; eauto.
  apply active_turn_continue_idle in Hturn. rewrite Hturn. eauto.
Qed.


End ScheduleCursor.

(** ** DBC aggregation *)

(** C4.  Two DBC files of one channel with the explicit baud rates 500000
    and 250000: the [ValueError] of the mismatch is raised inside the
    [try] block and taken by its own handler, and
    [parse_dbcs_for_channel] returns the merged model with the first baud
    rate.  It returns normally on every list of files. *)
Theorem baudrate_conflict_returns_merged_model :
  (exists ma mb,
      parse_dbc_single_file DbcSample.file_a
      = Ok (ma, {| Baudrate := Some 500000; _Baudrate_source := Some "explicit"%string |})
      /\ parse_dbc_single_file DbcSample.file_b
         = Ok (mb, {| Baudrate := Some 250000; _Baudrate_source := Some "explicit"%string |}))
  /\ (aggregate_file DbcSample.after_a DbcSample.file_b).2 = true
  /\ parse_dbcs_for_channel [DbcSample.file_a; DbcSample.file_b]
     = Ok ([(256, DbcSample.message 256 "MsgA" "ECU1");
            (512, DbcSample.message 512 "MsgB" "ECU2")], Some 500000)
  /\ forall dbc_paths : list (option (list (DbcLine Q))),
       returns (parse_dbcs_for_channel dbc_paths).
Proof.
  split; [|split; [|split]].
  - eexists _, _. split; reflexivity.
  - reflexivity.
  - reflexivity.
  - intros dbc_paths. eexists. reflexivity.
Qed.

(** ** LDF invariants *)

Section LdfInvariant.
Context {F : Type} `{PyFloat F}.

Lemma dict_set_elem {K V : Type} `{EqDecision K} (d : list (K * V)) k v x :
  x ∈ Dict.set d k v -> x = (k, v) \/ x ∈ d.
Proof.
  induction d as [|[k0 v0] d IH]; simpl.
  - intros Hx. apply list_elem_of_singleton in Hx. now left.
  - destruct (decide (k0 = k)); rewrite !elem_of_cons; intros [Hx|Hx]; auto.
    destruct (IH Hx); auto.
Qed.

Lemma schedule_entries_known (frames : list (string * LDFFrame F))
    (entries : list (string * string)) (l : list ScheduleEntry) :
  schedule_entries frames entries = Some l ->
  Forall (fun e => Dict.mem frames (frame_name e) = true) l.
Proof.
  revert l. induction entries as [|[name delay] rest IH]; intros l; simpl.
  - intros [= <-]. constructor.
  - destruct (Dict.mem frames name) eqn:Hmem; [|discriminate].
    destruct (Str.int_of_string 10 delay); [|discriminate].
    destruct (schedule_entries frames rest) as [tail|]; [|discriminate].
    simpl. intros [= <-]. constructor; [exact Hmem | now apply IH].
Qed.

Lemma add_schedule_references (frames : list (string * LDFFrame F))
    (schedules : list (string * list ScheduleEntry)) d :
  references_frames frames schedules ->
  references_frames frames (add_schedule frames schedules d).
Proof.
  intros Hok. unfold add_schedule. destruct d as [sched_name entries].
  destruct (schedule_entries frames entries) as [[|e es]|] eqn:Hentries;
    try exact Hok.
  intros name l x Hin Hx. apply dict_set_elem in Hin as [[= -> ->]|Hin].
  - apply schedule_entries_known in Hentries.
    rewrite Forall_forall in Hentries. now apply Hentries.
  - eapply Hok; eauto.
Qed.

Lemma schedules_reference_frames (frames : list (string * LDFFrame F))
    (defs : list (string * list (string * string)))
    (schedules : list (string * list ScheduleEntry)) :
  references_frames frames schedules ->
  references_frames frames (foldl (add_schedule frames) schedules defs).
Proof.
  revert schedules. induction defs as [|d defs IH]; intros schedules Hok; cbn [foldl].
  - exact Hok.
  - apply IH. now apply add_schedule_references.
Qed.

End LdfInvariant.

(** C2.  Every entry of every schedule table [parse_ldf] keeps names a
    frame of the frames map.  The ranges of the frames are not checked:
    the text with [Big: 100, M, 9 { }] parses to a standard frame with
    id 100 and DLC 9. *)
Theorem parse_ldf_schedules_known_frames_unchecked_ranges :
  (forall (src : LdfText Q) (ldf_data : LDFData Q) name entries e,
      parse_ldf src = Ok ldf_data ->
      (name, entries) ∈ schedules ldf_data -> e ∈ entries ->
      exists f, Dict.get (frames ldf_data) (frame_name e) = Some f)
  /\ exists ldf_data,
       parse_ldf LdfSample.out_of_range = Ok ldf_data
       /\ frames ldf_data = [("Big"%string, LdfSample.big_frame)]
       /\ schedules ldf_data
          = [("T"%string, [{| frame_name := "Big"; delay_ms := 10 |}])]
       /\ lf_frame_type LdfSample.big_frame = "standard"%string
       /\ lf_id LdfSample.big_frame = Some 100 /\ ~ (0 <= 100 <= 63)
       /\ lf_dlc LdfSample.big_frame = Some 9 /\ ~ (1 <= 9 <= 8).
Proof.
  split.
  - intros src ldf_data name entries e. unfold parse_ldf.
    destruct (nodes_match src) as [nb|]; [|discriminate].
    set (fs := parse_frames src _).
    destruct fs as [|f0 fs'] eqn:Hfs; [discriminate|].
    intros [= <-]. cbn [schedules frames]. intros Hin He.
    assert (Hmem : Dict.mem (f0 :: fs') (frame_name e) = true).
    { eapply (schedules_reference_frames (f0 :: fs') (schedule_defs src) []);
        [|exact Hin|exact He].
      intros n l x Hnil. now apply elem_of_nil in Hnil. }
    unfold Dict.mem in Hmem.
    destruct (Dict.get (f0 :: fs') (frame_name e)) as [f|]; [eauto|discriminate].
  - eexists. split; [vm_compute; reflexivity|].
    repeat split; try reflexivity; lia.
Qed.

Lemma parse_ldf_schedules_known_frames_unchecked_ranges_witness :
  exists ldf_data,
    parse_ldf LdfSample.out_of_range = Ok ldf_data
    /\ ("T"%string, [{| frame_name := "Big"; delay_ms := 10 |}]) ∈ schedules ldf_data
    /\ {| frame_name := "Big"; delay_ms := 10 |}
       ∈ [{| frame_name := "Big"; delay_ms := 10 |}]
    /\ exists f, Dict.get (frames ldf_data) "Big"%string = Some f.
Proof.
  destruct (proj2 parse_ldf_schedules_known_frames_unchecked_ranges)
    as (ldf_data & Hparse & Hframes & Hsched & _).
  exists ldf_data.
  assert (Hin : ("T"%string, [{| frame_name := "Big"; delay_ms := 10 |}])
                ∈ schedules ldf_data).
  { rewrite Hsched. apply elem_of_cons. now left. }
  assert (He : {| frame_name := "Big"; delay_ms := 10 |}
               ∈ [{| frame_name := "Big"; delay_ms := 10 |}]).
  { apply elem_of_cons. now left. }
  repeat split; try assumption.
  exact (proj1 parse_ldf_schedules_known_frames_unchecked_ranges
           LdfSample.out_of_range ldf_data "T"%string _ _ Hparse Hin He).
Defined.

Lemma gateway_counters_balanced_witness :
  exists stats res,
    GatewaySample.run = Ok stats
    /\ gateway_results stats !! 0 = Some res
    /\ comparisons res = 1 /\ matches_ res = 1
    /\ comparisons res
       = matches_ res + mismatches_value res + mismatches_type res
         + mismatches_timing res.
Proof.
  assert (Hrun : exists stats,
            GatewaySample.run = Ok stats
            /\ exists res, gateway_results stats !! 0 = Some res
                           /\ comparisons res = 1 /\ matches_ res = 1).
  { vm_compute. eexists. split; [reflexivity|].
    eexists. split; [vm_compute; reflexivity|]. split; reflexivity. }
  destruct Hrun as (stats & Hrun & res & Hres & Hc & Hm).
  exists stats, res. repeat split; try assumption.
  exact (proj2 (gateway_counters_balanced (F := Q)) _ _ _ _ _ _ _ _ Hrun Hres).
Defined.


Example grouping_sample :
  unique_schedules GroupSample.written GroupSample.tables
  = [("Backup"%string, GroupSample.two_slots);
     ("Slow"%string, [{| frame_name := "F1"; delay_ms := 20 |}])]
  /\ (group_equivalent_schedules GroupSample.written GroupSample.tables).2
     = [("Backup"%string, ["Backup"; "Normal"]%string);
        ("Slow"%string, ["Slow"%string])].
Proof. split; vm_compute; reflexivity. Qed.


Example mismatch_then_restart :
  exists s,
    schedule_loop 2 Sample.ldf (Qmake 101 100) "F1" (Qmake 1 10) (Qmake 5 1000)
      CursorSample.after_first = Some (Ok s)
    /\ active_schedules (schedule_runtime_state s) = ["Main"%string]
    /\ current_index (schedule_runtime_state s) = 1
    /\ map cr_status (cycles s) = ["Aborted"%string]
    /\ global_errors s = [].
Proof. eexists. split; [vm_compute; reflexivity|]. repeat split. Qed.

Example mismatch_then_intrusion :
  exists s,
    schedule_loop 2 Sample.ldf (Qmake 101 100) "F2" (Qmake 1 10) (Qmake 5 1000)
      (with_state CursorSample.after_first
         {| active_schedules := ["Main"%string]; current_index := 0;
            last_event_timestamp := Some 1%Q; cycle_start_timestamp := Some 1%Q;
            cycle_log := []; cycle_id := 0; has_timing_errors := false;
            id_ := Some 0 |}) = Some (Ok s)
    /\ active_schedules (schedule_runtime_state s) = []
    /\ map ge_type (global_errors s) = ["Intrusion Frame"%string].
Proof. eexists. split; [vm_compute; reflexivity|]. repeat split. Qed.
